(** * artifact_reporter: a shallow embedding of [src/artifact_reporter.cpp]

    The node fuses darknet bounding boxes with a synchronized RGBD point
    cloud, estimates the location of the detected artifact and reports the
    most recent one to the base station.

    Conventions of the embedding:
    - machine integers are [Z] with the conversions written out
      ([uint32], [size_t], [int64]); [size_t] is 64 bits wide;
    - IEEE-754 numbers are [spec_float] of the standard library; [float] is
      binary32 (precision 24, emax 128), [double] is binary64;
    - byte buffers are [list byte];
    - global variables live in the record [Node], together with the traces of
      what the node logged and what it handed to the comms client;
    - everything the translation unit only calls (PCL conversion, tf2,
      protobuf, the comms client, the ROS clock) is a method of the class
      [Platform]. *)

From Stdlib Require Import ZArith List String Bool Lia.
From Stdlib Require Import Strings.Byte.
From Stdlib Require Import Floats.SpecFloat.
Import ListNotations.
Open Scope Z_scope.

(** ** Machine integers *)

Definition uint32 (x : Z) : Z := x mod 2 ^ 32.
Definition size_t (x : Z) : Z := x mod 2 ^ 64.
Definition int64 (x : Z) : Z := (x + 2 ^ 63) mod 2 ^ 64 - 2 ^ 63.

(** ** Messages *)

Definition Time := Z.

Record Header := {
  seq : Z;
  stamp : Time;
  frame_id : string
}.

Record PointField := {
  name : string;
  offset : Z;
  datatype : Z;
  count : Z
}.

(** sensor_msgs/PointCloud2 *)
Record PointCloud2 := {
  header : Header;
  height : Z;
  width : Z;
  fields : list PointField;
  is_bigendian : bool;
  point_step : Z;
  row_step : Z;
  data : list byte;
  is_dense : bool
}.

(** darknet_ros_msgs/BoundingBox; the four bounds are int64.  The member
    [Class] of the message is spelled [Class_] here. *)
Record BoundingBox := {
  xmin : Z;
  ymin : Z;
  xmax : Z;
  ymax : Z;
  id : Z;
  Class_ : string
}.

(** ** Outcome of a computation that reads a vector without a check *)

Inductive outcome (A : Type) : Type :=
| Returns (a : A)
| UndefinedBehaviour   (* [data[i]] with [i >= data.size()] *)
| OutOfFuel.           (* the loop budget of the model was used up *)

Arguments Returns {A} a.
Arguments UndefinedBehaviour {A}.
Arguments OutOfFuel {A}.

(** ** CropPointCloud *)

(** [for (size_t i = start; i < end; ++i) modified_pc.data.push_back(original_pc->data[i]);] *)
Fixpoint copy_point (fuel : nat) (src : list byte) (i end_ : Z) (dst : list byte)
  : outcome (list byte) :=
  match fuel with
  | O => OutOfFuel
  | S fuel' =>
      if i <? end_ then
        match nth_error src (Z.to_nat i) with
        | Some b => copy_point fuel' src (size_t (i + 1)) end_ (dst ++ [b])
        | None => UndefinedBehaviour
        end
      else Returns dst
  end.

(** [for (size_t c = bb.xmin; c <= bb.xmax; ++c)]; [n] is the budget handed
    to the inner loop. *)
Fixpoint crop_cols (n fuel : nat) (original_pc : PointCloud2) (bb : BoundingBox)
  (r c : Z) (dst : list byte) : outcome (list byte) :=
  match fuel with
  | O => OutOfFuel
  | S fuel' =>
      if c <=? size_t (xmax bb) then
        let start := size_t (size_t (r * row_step original_pc)
                             + size_t (c * point_step original_pc)) in
        let end_ := size_t (start + point_step original_pc) in
        match copy_point n (data original_pc) start end_ dst with
        | Returns dst' => crop_cols n fuel' original_pc bb r (size_t (c + 1)) dst'
        | UndefinedBehaviour => UndefinedBehaviour
        | OutOfFuel => OutOfFuel
        end
      else Returns dst
  end.

(** [for (size_t r = bb.ymin; r <= bb.ymax; ++r)] *)
Fixpoint crop_rows (n fuel : nat) (original_pc : PointCloud2) (bb : BoundingBox)
  (r : Z) (dst : list byte) : outcome (list byte) :=
  match fuel with
  | O => OutOfFuel
  | S fuel' =>
      if r <=? size_t (ymax bb) then
        match crop_cols n n original_pc bb r (size_t (xmin bb)) dst with
        | Returns dst' => crop_rows n fuel' original_pc bb (size_t (r + 1)) dst'
        | UndefinedBehaviour => UndefinedBehaviour
        | OutOfFuel => OutOfFuel
        end
      else Returns dst
  end.

(** The two subtractions are done in int64 and the result is stored in a
    uint32 member. *)
Definition CropPointCloud (n : nat) (original_pc : PointCloud2) (bb : BoundingBox)
  : outcome PointCloud2 :=
  let modified_height := uint32 (int64 (int64 (ymax bb - ymin bb) + 1)) in
  let modified_width := uint32 (int64 (int64 (xmax bb - xmin bb) + 1)) in
  match crop_rows n n original_pc bb (size_t (ymin bb)) [] with
  | Returns bytes =>
      Returns {| header := header original_pc;
                 height := modified_height;
                 width := modified_width;
                 fields := fields original_pc;
                 is_bigendian := is_bigendian original_pc;
                 point_step := point_step original_pc;
                 row_step := uint32 (modified_width * point_step original_pc);
                 data := bytes;
                 is_dense := is_dense original_pc |}
  | UndefinedBehaviour => UndefinedBehaviour
  | OutOfFuel => OutOfFuel
  end.

(** *** Vocabulary for the statements about cropping *)

(** The [len] bytes of [l] from index [i] on. *)
Definition slice (l : list byte) (i len : Z) : list byte :=
  firstn (Z.to_nat len) (skipn (Z.to_nat i) l).

(** The bytes of the point at pixel [(c, r)] of a cloud. *)
Definition point_bytes (pc : PointCloud2) (c r : Z) : list byte :=
  slice (data pc) (r * row_step pc + c * point_step pc) (point_step pc).

(** [lo; lo+1; ...], [n] numbers. *)
Definition zrange (lo : Z) (n : nat) : list Z :=
  map (fun k => lo + Z.of_nat k) (List.seq 0 n).

(** The fields of a PointCloud2 hold what their C++ types can hold. *)
Record representable (pc : PointCloud2) : Prop := {
  rep_height : 0 <= height pc < 2 ^ 32;
  rep_width : 0 <= width pc < 2 ^ 32;
  rep_point_step : 0 <= point_step pc < 2 ^ 32;
  rep_row_step : 0 <= row_step pc < 2 ^ 32;
  rep_data : Z.of_nat (List.length (data pc)) < 2 ^ 64
}.

(** A structured cloud: a row holds [width] points and the buffer holds
    [height] rows. *)
Record structured (pc : PointCloud2) : Prop := {
  str_rep : representable pc;
  str_row : width pc * point_step pc <= row_step pc;
  str_data : height pc * row_step pc <= Z.of_nat (List.length (data pc))
}.

Definition in_range (pc : PointCloud2) (bb : BoundingBox) : Prop :=
  0 <= xmin bb /\ xmin bb <= xmax bb /\ xmax bb < width pc /\
  0 <= ymin bb /\ ymin bb <= ymax bb /\ ymax bb < height pc.

(** The bounds of a box are int64 values. *)
Definition int64_box (bb : BoundingBox) : Prop :=
  - 2 ^ 63 <= xmin bb < 2 ^ 63 /\ - 2 ^ 63 <= xmax bb < 2 ^ 63 /\
  - 2 ^ 63 <= ymin bb < 2 ^ 63 /\ - 2 ^ 63 <= ymax bb < 2 ^ 63.

(** Every byte the crop reads exists: the last point of the box ends inside
    the buffer. *)
Definition reads_in_buffer (pc : PointCloud2) (bb : BoundingBox) : Prop :=
  0 <= xmin bb /\ xmin bb <= xmax bb /\ 0 <= ymin bb /\ ymin bb <= ymax bb /\
  ymax bb * row_step pc + xmax bb * point_step pc + point_step pc
    <= Z.of_nat (List.length (data pc)).

(** What the three loops append, written with list combinators. *)
Definition row_bytes (pc : PointCloud2) (bb : BoundingBox) (r : Z) : list byte :=
  flat_map (fun c => point_bytes pc c r)
           (zrange (xmin bb) (Z.to_nat (xmax bb - xmin bb + 1))).

Definition box_bytes (pc : PointCloud2) (bb : BoundingBox) : list byte :=
  flat_map (row_bytes pc bb)
           (zrange (ymin bb) (Z.to_nat (ymax bb - ymin bb + 1))).

(** ** Floating point *)

(** [float]: IEEE-754 binary32, round to nearest even. *)
Definition float := spec_float.
(** [double]: IEEE-754 binary64. *)
Definition double := spec_float.

Definition float_add : float -> float -> float := SFadd 24 128.
Definition float_div : float -> float -> float := SFdiv 24 128.
(** Conversion of an unsigned count to [float]. *)
Definition float_of_size_t (n : Z) : float := binary_normalize 24 128 n 0 false.
(** Widening is exact: every binary32 value is a binary64 value. *)
Definition double_of_float (f : float) : double := f.

Definition isinf (f : spec_float) : bool :=
  match f with
  | S754_infinity _ => true
  | _ => false
  end.

Definition isfinite (f : spec_float) : bool :=
  match f with
  | S754_zero _ | S754_finite _ _ _ => true
  | _ => false
  end.

Definition zero : spec_float := S754_zero false.
(** 1.0 *)
Definition one : spec_float := S754_finite false 8388608 (-23).

(** ** Geometry *)

Module pcl.

Record PointXYZ := {
  x : float;
  y : float;
  z : float
}.

(** [pcl::PointXYZ()] *)
Definition PointXYZ_default : PointXYZ := {| x := zero; y := zero; z := zero |}.

(** [pcl::CentroidPoint<pcl::PointXYZ>]: the number of points added and the
    running sum of their coordinates (an [Eigen::Vector3f], initially zero). *)
Record CentroidPoint := {
  num_points_ : Z;
  xyz : PointXYZ
}.

Definition CentroidPoint_new : CentroidPoint :=
  {| num_points_ := 0; xyz := PointXYZ_default |}.

(** [centroid.add(p)]: [xyz += p.getVector3fMap(); ++num_points_] *)
Definition add (centroid : CentroidPoint) (p : PointXYZ) : CentroidPoint :=
  {| num_points_ := size_t (num_points_ centroid + 1);
     xyz := {| x := float_add (x (xyz centroid)) (x p);
               y := float_add (y (xyz centroid)) (y p);
               z := float_add (z (xyz centroid)) (z p) |} |}.

(** The test of line 297. *)
Definition has_inf (p : PointXYZ) : bool :=
  isinf (x p) || isinf (y p) || isinf (z p).

(** [centroid.get(location)]: [if (num_points_ != 0) location = xyz / num_points_];
    with no point added, [location] is left as it was. *)
Definition get (centroid : CentroidPoint) (location : PointXYZ) : PointXYZ :=
  if num_points_ centroid =? 0 then location
  else
    let n := float_of_size_t (num_points_ centroid) in
    {| x := float_div (x (xyz centroid)) n;
       y := float_div (y (xyz centroid)) n;
       z := float_div (z (xyz centroid)) n |}.

End pcl.

Module geometry_msgs.

Record Point := {
  x : double;
  y : double;
  z : double
}.

Definition Point_zero : Point := {| x := zero; y := zero; z := zero |}.

Record Quaternion := {
  qx : double;
  qy : double;
  qz : double;
  qw : double
}.

Record Pose := {
  position : Point;
  orientation : Quaternion
}.

Record PoseStamped := {
  header : Header;
  pose : Pose
}.

End geometry_msgs.

(** ** Artifacts *)

Module subt.

(** The members of [subt::ArtifactType] this node uses. *)
Inductive ArtifactType :=
| TYPE_BACKPACK
| TYPE_RESCUE_RANDY
| TYPE_PHONE
| TYPE_EXTINGUISHER
| TYPE_DRILL.

(** [ignition::msgs::Pose], of which only the position is ever set. *)
Record Pose := {
  position : geometry_msgs.Point
}.

(** [subt::msgs::Artifact] *)
Record Artifact := {
  type : Z;
  pose : Pose
}.

(** [subt::msgs::ArtifactScore], of which only the artifact is read. *)
Record ArtifactScore := {
  artifact : Artifact
}.

End subt.

Record Artifact := {
  type : subt.ArtifactType;
  location : geometry_msgs.Point
}.

(** ** The node: its globals and what it did to the outside *)

Inductive LogRecord :=
  (** [ROS_ERROR("ArtifactReporter::BaseStationCallback(): error deserializing message.")] *)
| ERROR_deserializing
  (** [ROS_INFO_STREAM("Artifact at location ... was received by the base station")] *)
| INFO_received (location : geometry_msgs.Point)
  (** [ROS_ERROR_STREAM("ArtifactReporter::ReportArtifact(): Error serializing message ...")] *)
| ERROR_serializing (artifact : subt.Artifact)
  (** [ROS_INFO_STREAM("Detected a ...! Location w.r.t ...")] *)
| INFO_detected (what : string) (origin_frame : string) (location : geometry_msgs.Point).

Record Node := {
  robot_name : string;
  camera_frame : string;
  object_frame : string;
  artifact_origin_frame : string;
  rgbd_pc_topic : string;
  darknet_bb_topic : string;
  artifact_to_report : Artifact;
  have_an_artifact_to_report : bool;
  (** log records, oldest first *)
  rosout : list LogRecord;
  (** [(data, destination)] of every [commsClient.SendTo], oldest first *)
  sent : list (string * string);
  (** how often [ros::Time::now()] has been read *)
  clock_reads : nat
}.

Definition set_artifact_to_report (a : Artifact) (w : Node) : Node :=
  {| robot_name := robot_name w;
     camera_frame := camera_frame w;
     object_frame := object_frame w;
     artifact_origin_frame := artifact_origin_frame w;
     rgbd_pc_topic := rgbd_pc_topic w;
     darknet_bb_topic := darknet_bb_topic w;
     artifact_to_report := a;
     have_an_artifact_to_report := have_an_artifact_to_report w;
     rosout := rosout w;
     sent := sent w;
     clock_reads := clock_reads w |}.

Definition set_have_an_artifact_to_report (b : bool) (w : Node) : Node :=
  {| robot_name := robot_name w;
     camera_frame := camera_frame w;
     object_frame := object_frame w;
     artifact_origin_frame := artifact_origin_frame w;
     rgbd_pc_topic := rgbd_pc_topic w;
     darknet_bb_topic := darknet_bb_topic w;
     artifact_to_report := artifact_to_report w;
     have_an_artifact_to_report := b;
     rosout := rosout w;
     sent := sent w;
     clock_reads := clock_reads w |}.

Definition ros_log (r : LogRecord) (w : Node) : Node :=
  {| robot_name := robot_name w;
     camera_frame := camera_frame w;
     object_frame := object_frame w;
     artifact_origin_frame := artifact_origin_frame w;
     rgbd_pc_topic := rgbd_pc_topic w;
     darknet_bb_topic := darknet_bb_topic w;
     artifact_to_report := artifact_to_report w;
     have_an_artifact_to_report := have_an_artifact_to_report w;
     rosout := rosout w ++ [r];
     sent := sent w;
     clock_reads := clock_reads w |}.

(** [commsClient.SendTo(data, dst)] *)
Definition SendTo (data dst : string) (w : Node) : Node :=
  {| robot_name := robot_name w;
     camera_frame := camera_frame w;
     object_frame := object_frame w;
     artifact_origin_frame := artifact_origin_frame w;
     rgbd_pc_topic := rgbd_pc_topic w;
     darknet_bb_topic := darknet_bb_topic w;
     artifact_to_report := artifact_to_report w;
     have_an_artifact_to_report := have_an_artifact_to_report w;
     rosout := rosout w;
     sent := sent w ++ [(data, dst)];
     clock_reads := clock_reads w |}.

Definition clock_tick (w : Node) : Node :=
  {| robot_name := robot_name w;
     camera_frame := camera_frame w;
     object_frame := object_frame w;
     artifact_origin_frame := artifact_origin_frame w;
     rgbd_pc_topic := rgbd_pc_topic w;
     darknet_bb_topic := darknet_bb_topic w;
     artifact_to_report := artifact_to_report w;
     have_an_artifact_to_report := have_an_artifact_to_report w;
     rosout := rosout w;
     sent := sent w;
     clock_reads := S (clock_reads w) |}.

Definition set_object_frame (f : string) (w : Node) : Node :=
  {| robot_name := robot_name w;
     camera_frame := camera_frame w;
     object_frame := f;
     artifact_origin_frame := artifact_origin_frame w;
     rgbd_pc_topic := rgbd_pc_topic w;
     darknet_bb_topic := darknet_bb_topic w;
     artifact_to_report := artifact_to_report w;
     have_an_artifact_to_report := have_an_artifact_to_report w;
     rosout := rosout w;
     sent := sent w;
     clock_reads := clock_reads w |}.

(** ** What the node calls but does not define *)

Class Platform := {
  (** [tf2_ros::Buffer] *)
  tf2_Buffer : Type;
  (** [geometry_msgs::TransformStamped] *)
  TransformStamped : Type;
  (** [pcl_conversions::toPCL] followed by [pcl::fromPCLPointCloud2]: the
      points of the cloud, in buffer order *)
  fromPCLPointCloud2 : PointCloud2 -> list pcl.PointXYZ;
  (** the value of the [k]-th reading of [ros::Time::now()] *)
  ros_Time_now : nat -> Time;
  (** [tf_buffer.transform(in, target_frame, timeout)]; [None] when it
      throws a [tf2::TransformException] *)
  tf2_transform : tf2_Buffer -> geometry_msgs.PoseStamped -> string -> Z ->
                  option geometry_msgs.PoseStamped;
  (** the helper of [ToTransformStamped.h] *)
  ToTransformStamped : geometry_msgs.PoseStamped -> string -> string -> TransformStamped;
  (** [artifact.SerializeToString(&serializedData)]: the result and the
      contents of [serializedData] afterwards *)
  SerializeToString : subt.Artifact -> bool * string;
  (** [res.ParseFromString(data)]: the result and the contents of [res]
      afterwards *)
  ParseFromString : string -> bool * subt.ArtifactScore;
  (** [static_cast<uint32_t>] on [subt::ArtifactType] *)
  ArtifactType_uint32 : subt.ArtifactType -> Z;
  (** [subt::kBaseStationName] *)
  kBaseStationName : string
}.

(** [P] with another helper behind [ToTransformStamped]. *)
Definition with_ToTransformStamped (P : Platform) (T : Type)
  (f : geometry_msgs.PoseStamped -> string -> string -> T) : Platform :=
  {| tf2_Buffer := @tf2_Buffer P;
     TransformStamped := T;
     fromPCLPointCloud2 := @fromPCLPointCloud2 P;
     ros_Time_now := @ros_Time_now P;
     tf2_transform := @tf2_transform P;
     ToTransformStamped := f;
     SerializeToString := @SerializeToString P;
     ParseFromString := @ParseFromString P;
     ArtifactType_uint32 := @ArtifactType_uint32 P;
     kBaseStationName := @kBaseStationName P |}.

(** darknet_ros_msgs/BoundingBoxes *)
Record BoundingBoxes := {
  bb_header : Header;
  image_header : Header;
  bounding_boxes : list BoundingBox
}.

(** How a callback that may throw ends. *)
Inductive completion :=
| Completed (w : Node)            (* the callback returned *)
| TransformException (w : Node)   (* a tf2::TransformException left the callback;
                                     [w] is the node at the throw *)
| Undefined                       (* CropPointCloud read past the buffer *)
| Unfinished.                     (* loop budget of the model used up *)

Definition completion_map (f : Node -> Node) (c : completion) : completion :=
  match c with
  | Completed w => Completed (f w)
  | TransformException w => TransformException (f w)
  | Undefined => Undefined
  | Unfinished => Unfinished
  end.

Section Callbacks.

Context {P : Platform}.

(** *** BaseStationCallback *)

Definition BaseStationCallback (srcAddress dstAddress : string) (dstPort : Z)
  (data : string) (w : Node) : Node :=
  let (parsed, res) := ParseFromString data in
  let w := if negb parsed then ros_log ERROR_deserializing w else w in
  let location :=
    {| geometry_msgs.x := geometry_msgs.x (subt.position (subt.pose (subt.artifact res)));
       geometry_msgs.y := geometry_msgs.y (subt.position (subt.pose (subt.artifact res)));
       geometry_msgs.z := geometry_msgs.z (subt.position (subt.pose (subt.artifact res))) |} in
  let w := ros_log (INFO_received location) w in
  set_have_an_artifact_to_report false w.

(** *** ReportArtifacts *)

(** The message built from [artifact_to_report] before it is serialized. *)
Definition artifact_message (a : Artifact) : subt.Artifact :=
  let location := location a in
  let pose :=
    {| subt.position :=
         {| geometry_msgs.x := geometry_msgs.x location;
            geometry_msgs.y := geometry_msgs.y location;
            geometry_msgs.z := geometry_msgs.z location |} |} in
  {| subt.type := uint32 (ArtifactType_uint32 (type a));
     subt.pose := pose |}.

Definition ReportArtifacts (w : Node) : Node :=
  if negb (have_an_artifact_to_report w) then w
  else
    let artifact := artifact_message (artifact_to_report w) in
    let (serialized, serializedData) := SerializeToString artifact in
    let w := if negb serialized then ros_log (ERROR_serializing artifact) w else w in
    SendTo serializedData kBaseStationName w.

(** *** GetCentroid *)

(** The body of [for (auto &p : pclObj.points)]. *)
Definition add_unless_inf (centroid : pcl.CentroidPoint) (p : pcl.PointXYZ)
  : pcl.CentroidPoint :=
  if pcl.has_inf p then centroid
  else pcl.add centroid p.

(** Lines 294-306: the loop over the points and the extraction. *)
Definition centroid_location (points : list pcl.PointXYZ) : pcl.PointXYZ :=
  let centroid := fold_left add_unless_inf points pcl.CentroidPoint_new in
  pcl.get centroid pcl.PointXYZ_default.

Definition GetCentroid (original_pc : PointCloud2) (w : Node)
  : geometry_msgs.PoseStamped * Node :=
  let pclObj := fromPCLPointCloud2 original_pc in
  let location := centroid_location pclObj in
  ({| geometry_msgs.header :=
        {| seq := 0;
           stamp := ros_Time_now (clock_reads w);
           frame_id := camera_frame w |};
      geometry_msgs.pose :=
        {| geometry_msgs.position :=
             {| geometry_msgs.x := double_of_float (pcl.x location);
                geometry_msgs.y := double_of_float (pcl.y location);
                geometry_msgs.z := double_of_float (pcl.z location) |};
           geometry_msgs.orientation :=
             {| geometry_msgs.qx := zero;
                geometry_msgs.qy := zero;
                geometry_msgs.qz := zero;
                geometry_msgs.qw := one |} |} |},
   clock_tick w).

(** *** ProcessDetection *)

(** What each of the five [if (box.Class == ...)] bodies does. *)
Definition detected (t : subt.ArtifactType) (what : string)
  (scoring_pose : geometry_msgs.PoseStamped) (w : Node) : Node :=
  let position := geometry_msgs.position (geometry_msgs.pose scoring_pose) in
  let a :=
    {| type := t;
       location := {| geometry_msgs.x := geometry_msgs.x position;
                      geometry_msgs.y := geometry_msgs.y position;
                      geometry_msgs.z := geometry_msgs.z position |} |} in
  let w := set_artifact_to_report a w in
  let w := set_have_an_artifact_to_report true w in
  ros_log (INFO_detected what (artifact_origin_frame w) (location (artifact_to_report w))) w.

(** The five comparisons, one after the other. *)
Definition classify (box : BoundingBox) (scoring_pose : geometry_msgs.PoseStamped)
  (w : Node) : Node :=
  let w := if (Class_ box =? "Backpack")%string
           then detected subt.TYPE_BACKPACK "backapack" scoring_pose w else w in
  let w := if (Class_ box =? "Survivor")%string
           then detected subt.TYPE_RESCUE_RANDY "survivor" scoring_pose w else w in
  let w := if (Class_ box =? "Cell Phone")%string
           then detected subt.TYPE_PHONE "cell phone" scoring_pose w else w in
  let w := if (Class_ box =? "Fire Extinguisher")%string
           then detected subt.TYPE_EXTINGUISHER "fire extinguisher" scoring_pose w else w in
  let w := if (Class_ box =? "Drill")%string
           then detected subt.TYPE_DRILL "drill" scoring_pose w else w in
  w.

(** [ros::Duration(1.0)], in seconds. *)
Definition Duration_1_0 : Z := 1.

(** The body of [for (const auto & box : bb_msg->bounding_boxes)]. *)
Definition process_box (n : nat) (cloud_msg : PointCloud2) (tf_buffer : tf2_Buffer)
  (box : BoundingBox) (w : Node) : completion :=
  match CropPointCloud n cloud_msg box with
  | Returns cropped_pc =>
      let (centroid, w) := GetCentroid cropped_pc w in
      let tf_stamped := ToTransformStamped centroid (camera_frame w) (object_frame w) in
      match tf2_transform tf_buffer centroid (artifact_origin_frame w) Duration_1_0 with
      | Some scoring_pose => Completed (classify box scoring_pose w)
      | None => TransformException w
      end
  | UndefinedBehaviour => Undefined
  | OutOfFuel => Unfinished
  end.

Fixpoint process_boxes (n : nat) (cloud_msg : PointCloud2) (tf_buffer : tf2_Buffer)
  (boxes : list BoundingBox) (w : Node) : completion :=
  match boxes with
  | [] => Completed w
  | box :: rest =>
      match process_box n cloud_msg tf_buffer box w with
      | Completed w' => process_boxes n cloud_msg tf_buffer rest w'
      | stopped => stopped
      end
  end.

Definition ProcessDetection (n : nat) (cloud_msg : PointCloud2) (bb_msg : BoundingBoxes)
  (tf_buffer : tf2_Buffer) (w : Node) : completion :=
  process_boxes n cloud_msg tf_buffer (bounding_boxes bb_msg) w.

End Callbacks.

(** ** Vocabulary for the statements about the callbacks *)

(** The labels ProcessDetection compares [box.Class] with. *)
Definition vocabulary : list string :=
  ["Backpack"; "Survivor"; "Cell Phone"; "Fire Extinguisher"; "Drill"]%string.

(** The sum, in binary32 and from left to right, of a list of floats. *)
Definition float_sum (l : list float) : float := fold_left float_add l zero.

(** The mean, in binary32, of the coordinates of a list of points: their
    sum divided by their number. *)
Definition float_mean (l : list pcl.PointXYZ) : pcl.PointXYZ :=
  let n := float_of_size_t (Z.of_nat (List.length l)) in
  {| pcl.x := float_div (float_sum (map pcl.x l)) n;
     pcl.y := float_div (float_sum (map pcl.y l)) n;
     pcl.z := float_div (float_sum (map pcl.z l)) n |}.

Definition no_inf (p : pcl.PointXYZ) : bool := negb (pcl.has_inf p).

(** The part of a node the claims call the artifact state, and its log. *)
Definition same_report (w w' : Node) : Prop :=
  artifact_to_report w' = artifact_to_report w
  /\ have_an_artifact_to_report w' = have_an_artifact_to_report w
  /\ rosout w' = rosout w
  /\ sent w' = sent w.

(** ** A bench platform, to run the callbacks on concrete inputs *)

Module Bench.

(** The IEEE-754 binary32 value with bit pattern [w]. *)
Definition float_of_bits (w : Z) : float :=
  let s := Z.testbit w 31 in
  let e := Z.land (Z.shiftr w 23) 255 in
  let m := Z.land w (2 ^ 23 - 1) in
  if e =? 0 then
    match m with
    | Zpos p => S754_finite s p (-149)
    | _ => S754_zero s
    end
  else if e =? 255 then
    if m =? 0 then S754_infinity s else S754_nan
  else
    match m + 2 ^ 23 with
    | Zpos p => S754_finite s p (e - 150)
    | _ => S754_nan
    end.

(** Four bytes at [off], little endian, as a float; zero when the buffer is
    too short. *)
Definition read_float (bytes : list byte) (off : Z) : float :=
  match slice bytes off 4 with
  | [b0; b1; b2; b3] =>
      float_of_bits (Z.of_N (Byte.to_N b0) + 2 ^ 8 * Z.of_N (Byte.to_N b1)
                     + 2 ^ 16 * Z.of_N (Byte.to_N b2) + 2 ^ 24 * Z.of_N (Byte.to_N b3))
  | _ => zero
  end.

(** The conversion to [pcl::PointCloud<pcl::PointXYZ>] of a cloud whose
    fields are x, y, z, FLOAT32, at offsets 0, 4 and 8 of each point: row by
    row, [width] points a row. *)
Definition xyz_points (pc : PointCloud2) : list pcl.PointXYZ :=
  map (fun k =>
         let r := k / width pc in
         let c := k mod width pc in
         let base := r * row_step pc + c * point_step pc in
         {| pcl.x := read_float (data pc) base;
            pcl.y := read_float (data pc) (base + 4);
            pcl.z := read_float (data pc) (base + 8) |})
      (zrange 0 (Z.to_nat (width pc * height pc))).

(** The buffer knows the transform from the camera frame to the artifact
    origin (here the identity) for the stamps from [tf_buffer] on; a lookup
    at an older stamp throws. *)
Definition transform (tf_buffer : Time) (pose_in : geometry_msgs.PoseStamped)
  (target_frame : string) (timeout : Z) : option geometry_msgs.PoseStamped :=
  if tf_buffer <=? stamp (geometry_msgs.header pose_in) then
    Some {| geometry_msgs.header :=
              {| seq := seq (geometry_msgs.header pose_in);
                 stamp := stamp (geometry_msgs.header pose_in);
                 frame_id := target_frame |};
            geometry_msgs.pose := geometry_msgs.pose pose_in |}
  else None.

(** The numbering of [subt::ArtifactType] in CommonTypes.hh. *)
Definition ArtifactType_value (t : subt.ArtifactType) : Z :=
  match t with
  | subt.TYPE_BACKPACK => 0
  | subt.TYPE_DRILL => 2
  | subt.TYPE_EXTINGUISHER => 4
  | subt.TYPE_PHONE => 5
  | subt.TYPE_RESCUE_RANDY => 7
  end.

Definition ArtifactScore_default : subt.ArtifactScore :=
  {| subt.artifact :=
       {| subt.type := 0;
          subt.pose := {| subt.position := {| geometry_msgs.x := zero;
                                              geometry_msgs.y := zero;
                                              geometry_msgs.z := zero |} |} |} |}.

(** A stand-in for the wire format: the artifact is written as the digit of
    its type; the only record that parses is the empty one.  [serializes]
    chooses whether [SerializeToString] succeeds. *)
Definition platform (serializes : bool) : Platform :=
  {| tf2_Buffer := Time;
     TransformStamped := geometry_msgs.PoseStamped * string * string;
     fromPCLPointCloud2 := xyz_points;
     ros_Time_now := fun k => Z.of_nat k;
     tf2_transform := transform;
     ToTransformStamped := fun p parent child => (p, parent, child);
     SerializeToString := fun a =>
       if serializes
       then (true, String (Ascii.ascii_of_N (48 + Z.to_N (subt.type a))) EmptyString)
       else (false, EmptyString);
     ParseFromString := fun s =>
       if (s =? EmptyString)%string then (true, ArtifactScore_default)
       else (false, ArtifactScore_default);
     ArtifactType_uint32 := ArtifactType_value;
     kBaseStationName := "base_station" |}.

(** Encodings of a few binary32 values, little endian. *)
Definition f32_zero : list byte := [x00; x00; x00; x00].
Definition f32_one : list byte := [x00; x00; x80; x3f].
Definition f32_inf : list byte := [x00; x00; x80; x7f].
Definition f32_nan : list byte := [x00; x00; xc0; x7f].

Definition xyz_fields : list PointField :=
  [ {| name := "x"; offset := 0; datatype := 7; count := 1 |};
    {| name := "y"; offset := 4; datatype := 7; count := 1 |};
    {| name := "z"; offset := 8; datatype := 7; count := 1 |} ].

(** A cloud of [w] by [h] points of 12 bytes with no padding. *)
Definition cloud (w h : Z) (bytes : list byte) : PointCloud2 :=
  {| header := {| seq := 0; stamp := 0; frame_id := "camera" |};
     height := h;
     width := w;
     fields := xyz_fields;
     is_bigendian := false;
     point_step := 12;
     row_step := 12 * w;
     data := bytes;
     is_dense := false |}.

Definition p_ones : list byte := f32_one ++ f32_one ++ f32_one.
Definition p_inf : list byte := f32_inf ++ f32_zero ++ f32_zero.
Definition p_nan : list byte := f32_nan ++ f32_zero ++ f32_zero.

(** 4 by 4, every point (1,1,1) except the corner (0,0), which is (inf,0,0). *)
Definition cloud_4x4 : PointCloud2 :=
  cloud 4 4 (p_inf ++ List.concat (repeat p_ones 15)).

(** 2 by 2, the points (inf,0,0), (1,1,1), (1,1,1), (1,1,1). *)
Definition cloud_corner : PointCloud2 :=
  cloud 2 2 (p_inf ++ p_ones ++ p_ones ++ p_ones).

(** 1 by 1, the point (inf,0,0). *)
Definition cloud_inf : PointCloud2 := cloud 1 1 p_inf.

(** 2 by 2, the points (1,1,1), (nan,0,0), (1,1,1), (1,1,1). *)
Definition cloud_nan : PointCloud2 :=
  cloud 2 2 (p_ones ++ p_nan ++ p_ones ++ p_ones).

Definition box (label : string) (x0 y0 x1 y1 : Z) : BoundingBox :=
  {| xmin := x0; ymin := y0; xmax := x1; ymax := y1; id := 0; Class_ := label |}.

Definition boxes (l : list BoundingBox) : BoundingBoxes :=
  {| bb_header := {| seq := 0; stamp := 0; frame_id := "camera" |};
     image_header := {| seq := 0; stamp := 0; frame_id := "camera" |};
     bounding_boxes := l |}.

Definition ones : geometry_msgs.Point :=
  {| geometry_msgs.x := one; geometry_msgs.y := one; geometry_msgs.z := one |}.

(** The node after [main] has read its parameters, with [pending] as the
    flag and [a] as the saved artifact. *)
Definition node (pending : bool) (a : Artifact) : Node :=
  {| robot_name := "anymal_b";
     camera_frame := "anymal_b/base/camera_front";
     object_frame := EmptyString;
     artifact_origin_frame := "artifact_origin";
     rgbd_pc_topic := "/anymal_b/downward_realsense/points";
     darknet_bb_topic := "/darknet_ros/bounding_boxes";
     artifact_to_report := a;
     have_an_artifact_to_report := pending;
     rosout := [];
     sent := [];
     clock_reads := 0 |}.

(** The zero-initialized global. *)
Definition no_artifact : Artifact :=
  {| type := subt.TYPE_BACKPACK; location := geometry_msgs.Point_zero |}.

(** Points, as [pcl::PointXYZ]. *)
Definition flt_max : float := S754_finite false 16777215 104.
Definition pt_ones : pcl.PointXYZ := {| pcl.x := one; pcl.y := one; pcl.z := one |}.
Definition pt_nan : pcl.PointXYZ := {| pcl.x := S754_nan; pcl.y := zero; pcl.z := zero |}.
Definition pt_inf : pcl.PointXYZ :=
  {| pcl.x := S754_infinity false; pcl.y := zero; pcl.z := zero |}.
Definition pt_max : pcl.PointXYZ :=
  {| pcl.x := flt_max; pcl.y := flt_max; pcl.z := flt_max |}.

Definition a_phone : Artifact := {| type := subt.TYPE_PHONE; location := ones |}.

(** 4 by 4 points of 12 bytes in rows of 56 bytes: 8 bytes of padding end
    each row. *)
Definition cloud_padded : PointCloud2 :=
  {| header := {| seq := 0; stamp := 0; frame_id := "camera" |};
     height := 4;
     width := 4;
     fields := xyz_fields;
     is_bigendian := false;
     point_step := 12;
     row_step := 56;
     data := List.concat (repeat (List.concat (repeat p_ones 4) ++ f32_zero ++ f32_zero) 4);
     is_dense := false |}.

(** 2 by 2, every point (1,1,1). *)
Definition cloud_ones : PointCloud2 :=
  cloud 2 2 (p_ones ++ p_ones ++ p_ones ++ p_ones).

End Bench.

(** ** Vocabulary for the statements about boxes, labels and runs *)

(** The box [inner], given in the pixel coordinates of the crop by [outer],
    in the pixel coordinates of the original cloud. *)
Definition shift_box (outer inner : BoundingBox) : BoundingBox :=
  {| xmin := xmin outer + xmin inner;
     ymin := ymin outer + ymin inner;
     xmax := xmin outer + xmax inner;
     ymax := ymin outer + ymax inner;
     id := id inner;
     Class_ := Class_ inner |}.

(** The five comparisons of ProcessDetection as a table: the label, the
    type stored and the word logged. *)
Definition label_table : list (string * (subt.ArtifactType * string)) :=
  [ ("Backpack", (subt.TYPE_BACKPACK, "backapack"));
    ("Survivor", (subt.TYPE_RESCUE_RANDY, "survivor"));
    ("Cell Phone", (subt.TYPE_PHONE, "cell phone"));
    ("Fire Extinguisher", (subt.TYPE_EXTINGUISHER, "fire extinguisher"));
    ("Drill", (subt.TYPE_DRILL, "drill")) ]%string.

Fixpoint lookup_label (label : string)
  (table : list (string * (subt.ArtifactType * string)))
  : option (subt.ArtifactType * string) :=
  match table with
  | [] => None
  | (key, entry) :: rest =>
      if (label =? key)%string then Some entry else lookup_label label rest
  end.

Definition recognized (box : BoundingBox) : bool :=
  existsb (String.eqb (Class_ box)) vocabulary.

(** The six strings [main] reads from the parameter server or leaves as
    they are. *)
Definition same_config (w w' : Node) : Prop :=
  robot_name w' = robot_name w
  /\ camera_frame w' = camera_frame w
  /\ object_frame w' = object_frame w
  /\ artifact_origin_frame w' = artifact_origin_frame w
  /\ rgbd_pc_topic w' = rgbd_pc_topic w
  /\ darknet_bb_topic w' = darknet_bb_topic w.

(** The node a callback left behind, when it left one. *)
Definition node_of (c : completion) : option Node :=
  match c with
  | Completed w => Some w
  | TransformException w => Some w
  | Undefined => None
  | Unfinished => None
  end.

(** ** The callbacks as [main] wires them *)

Section Spin.

Context {P : Platform}.

(** What [ros::spin()] dispatches, one callback at a time: the timer of
    line 86, the synchronized pair of lines 90-93 with the transform buffer
    as it is when the pair arrives, and a message for the address bound at
    line 83. *)
Inductive Event :=
| TimerEvent
| SynchronizedPair (cloud_msg : PointCloud2) (bb_msg : BoundingBoxes)
                   (tf_buffer : tf2_Buffer)
| InboundMessage (srcAddress dstAddress : string) (dstPort : Z) (data : string).

Definition dispatch (n : nat) (event : Event) (w : Node) : completion :=
  match event with
  | TimerEvent => Completed (ReportArtifacts w)
  | SynchronizedPair cloud_msg bb_msg tf_buffer =>
      ProcessDetection n cloud_msg bb_msg tf_buffer w
  | InboundMessage srcAddress dstAddress dstPort data =>
      Completed (BaseStationCallback srcAddress dstAddress dstPort data w)
  end.

(** The events in order; an exception that leaves a callback leaves
    [ros::spin()] and [main] too. *)
Fixpoint spin (n : nat) (events : list Event) (w : Node) : completion :=
  match events with
  | [] => Completed w
  | event :: rest =>
      match dispatch n event w with
      | Completed w' => spin n rest w'
      | stopped => stopped
      end
  end.

Definition is_timer (event : Event) : bool :=
  match event with
  | TimerEvent => true
  | _ => false
  end.

Definition is_pair (event : Event) : bool :=
  match event with
  | SynchronizedPair _ _ _ => true
  | _ => false
  end.

(** A pair none of whose boxes has a label of the vocabulary; the other
    events qualify too. *)
Definition unrecognized_only (event : Event) : bool :=
  match event with
  | SynchronizedPair _ bb_msg _ =>
      forallb (fun b => negb (recognized b)) (bounding_boxes bb_msg)
  | _ => true
  end.

End Spin.

(** Events for the bench platform, whose transform buffer is a stamp. *)
Module BenchRun.

Definition pair (cloud_msg : PointCloud2) (boxes : list BoundingBox) (tf_buffer : Time)
  : @Event (Bench.platform true) :=
  @SynchronizedPair (Bench.platform true) cloud_msg (Bench.boxes boxes) tf_buffer.

Definition tick : @Event (Bench.platform true) := @TimerEvent (Bench.platform true).

Definition message (data : string) : @Event (Bench.platform true) :=
  @InboundMessage (Bench.platform true) "base_station" "anymal_b" 4100 data.

End BenchRun.

(** * Facts about the machine integers *)

Lemma size_t_small (x : Z) : 0 <= x < 2 ^ 64 -> size_t x = x.
Proof. intros H. unfold size_t. now apply Z.mod_small. Qed.

Lemma uint32_small (x : Z) : 0 <= x < 2 ^ 32 -> uint32 x = x.
Proof. intros H. unfold uint32. now apply Z.mod_small. Qed.

Lemma int64_small (x : Z) : - 2 ^ 63 <= x < 2 ^ 63 -> int64 x = x.
Proof.
  intros H. unfold int64. rewrite Z.mod_small; lia.
Qed.

(** Storing an int64 in a uint32 keeps the low 32 bits. *)
Lemma uint32_int64 (x : Z) : uint32 (int64 x) = uint32 x.
Proof.
  unfold uint32, int64.
  rewrite (Z.mod_eq (x + 2 ^ 63) (2 ^ 64)) by lia.
  replace (x + 2 ^ 63 - 2 ^ 64 * ((x + 2 ^ 63) / 2 ^ 64) - 2 ^ 63)
    with (x + (- (2 ^ 32 * ((x + 2 ^ 63) / 2 ^ 64))) * 2 ^ 32) by lia.
  apply Z.mod_add. lia.
Qed.

(** * Facts about slices and lists of chunks *)

Lemma zrange_S (lo : Z) (n : nat) : zrange lo (S n) = lo :: zrange (lo + 1) n.
Proof.
  unfold zrange. cbn [List.seq map]. f_equal; [lia|].
  rewrite <- seq_shift, map_map. apply map_ext. intros k. lia.
Qed.

Lemma zrange_length (lo : Z) (n : nat) : List.length (zrange lo n) = n.
Proof. unfold zrange. now rewrite length_map, length_seq. Qed.

Lemma zrange_In (lo : Z) (n : nat) (v : Z) :
  In v (zrange lo n) -> lo <= v < lo + Z.of_nat n.
Proof.
  unfold zrange. rewrite in_map_iff. intros (k & <- & Hk).
  apply in_seq in Hk. lia.
Qed.

Lemma zrange_skipn (lo : Z) (n k : nat) :
  skipn k (zrange lo n) = zrange (lo + Z.of_nat k) (n - k).
Proof.
  revert lo n. induction k as [|k IH]; intros lo n.
  - rewrite Nat.sub_0_r. cbn [skipn]. f_equal. lia.
  - destruct n as [|n]; [reflexivity|].
    rewrite zrange_S. cbn [skipn]. rewrite IH. cbn [Nat.sub]. f_equal. lia.
Qed.

Lemma slice_nil (l : list byte) (i : Z) : slice l i 0 = [].
Proof. reflexivity. Qed.

Lemma slice_step (l : list byte) (i : Z) (len : nat) (b : byte) :
  0 <= i ->
  nth_error l (Z.to_nat i) = Some b ->
  slice l i (Z.of_nat (S len)) = b :: slice l (i + 1) (Z.of_nat len).
Proof.
  intros Hi Hb. unfold slice.
  rewrite !Nat2Z.id.
  replace (Z.to_nat (i + 1)) with (S (Z.to_nat i)) by lia.
  generalize dependent (Z.to_nat i). clear Hi i.
  intros k. revert l. induction k as [|k IH]; intros l Hb.
  - destruct l as [|a l]; [discriminate|]. cbn in Hb. injection Hb as ->. reflexivity.
  - destruct l as [|a l]; [discriminate|]. cbn in Hb. cbn [skipn]. now apply IH.
Qed.

Lemma slice_length (l : list byte) (i len : Z) :
  0 <= i -> 0 <= len -> i + len <= Z.of_nat (List.length l) ->
  Z.of_nat (List.length (slice l i len)) = len.
Proof.
  intros Hi Hlen Hle. unfold slice. rewrite length_firstn, length_skipn. lia.
Qed.

Section Chunks.

Context {A : Type} (f : A -> list byte) (len : nat).

Lemma flat_map_uniform_length (l : list A) :
  (forall a, In a l -> List.length (f a) = len) ->
  List.length (flat_map f l) = (List.length l * len)%nat.
Proof.
  induction l as [|a l IH]; intros Hl; [reflexivity|].
  cbn [flat_map List.length]. rewrite length_app.
  rewrite (Hl a (or_introl eq_refl)).
  rewrite IH by (intros b Hb; apply Hl; now right).
  lia.
Qed.

Lemma flat_map_uniform_skipn (l : list A) (k : nat) :
  (forall a, In a l -> List.length (f a) = len) ->
  skipn (k * len) (flat_map f l) = flat_map f (skipn k l).
Proof.
  revert l. induction k as [|k IH]; intros l Hl; [reflexivity|].
  destruct l as [|a l]; [cbn [flat_map]; now rewrite !skipn_nil|].
  cbn [flat_map skipn]. rewrite skipn_app.
  rewrite (Hl a (or_introl eq_refl)).
  replace (S k * len - len)%nat with (k * len)%nat by lia.
  rewrite skipn_all2 by (rewrite (Hl a (or_introl eq_refl)); lia).
  cbn [app]. apply IH. intros b Hb. apply Hl. now right.
Qed.

Lemma flat_map_uniform_head (a : A) (l : list A) :
  List.length (f a) = len ->
  firstn len (flat_map f (a :: l)) = f a.
Proof.
  intros Ha. cbn [flat_map]. rewrite firstn_app, Ha, Nat.sub_diag.
  cbn [firstn]. rewrite app_nil_r. apply firstn_all2. lia.
Qed.

End Chunks.

(** * The three loops of CropPointCloud *)

Lemma copy_point_slice (len : nat) :
  forall (fuel : nat) (src : list byte) (i : Z) (dst : list byte),
    (len < fuel)%nat ->
    0 <= i ->
    i + Z.of_nat len <= Z.of_nat (List.length src) ->
    Z.of_nat (List.length src) < 2 ^ 64 ->
    copy_point fuel src i (i + Z.of_nat len) dst
    = Returns (dst ++ slice src i (Z.of_nat len)).
Proof.
  induction len as [|len IH]; intros fuel src i dst Hfuel Hi Hend Hsize;
    (destruct fuel as [|fuel]; [lia|]); cbn [copy_point].
  - replace (i <? i + Z.of_nat 0) with false by (symmetry; apply Z.ltb_ge; lia).
    now rewrite slice_nil, app_nil_r.
  - replace (i <? i + Z.of_nat (S len)) with true by (symmetry; apply Z.ltb_lt; lia).
    destruct (nth_error src (Z.to_nat i)) as [b|] eqn:Hb.
    + rewrite size_t_small by lia.
      replace (i + Z.of_nat (S len)) with (i + 1 + Z.of_nat len) by lia.
      rewrite IH by lia.
      rewrite (slice_step src i len b Hi Hb), <- app_assoc. reflexivity.
    + apply nth_error_None in Hb. lia.
Qed.

Lemma copy_point_slice_Z (fuel : nat) (src : list byte) (i len : Z) (dst : list byte) :
  len < Z.of_nat fuel ->
  0 <= i -> 0 <= len ->
  i + len <= Z.of_nat (List.length src) ->
  Z.of_nat (List.length src) < 2 ^ 64 ->
  copy_point fuel src i (i + len) dst = Returns (dst ++ slice src i len).
Proof.
  intros Hfuel Hi Hlen Hend Hsize.
  rewrite <- (Z2Nat.id len Hlen). apply copy_point_slice; lia.
Qed.

Section CropLoops.

Variables (pc : PointCloud2) (bb : BoundingBox) (n : nat).

Hypothesis Hps : 0 <= point_step pc.
Hypothesis Hrs : 0 <= row_step pc.
Hypothesis Hsize : Z.of_nat (List.length (data pc)) < 2 ^ 64.
Hypothesis Hn : point_step pc < Z.of_nat n.
Hypothesis Hxmax : 0 <= xmax bb < 2 ^ 63.

Lemma crop_cols_flat_map (k : nat) :
  forall (fuel : nat) (r c : Z) (dst : list byte),
    (k < fuel)%nat ->
    0 <= r -> 0 <= c ->
    c + Z.of_nat k = xmax bb + 1 ->
    r * row_step pc + xmax bb * point_step pc + point_step pc
      <= Z.of_nat (List.length (data pc)) ->
    crop_cols n fuel pc bb r c dst
    = Returns (dst ++ flat_map (fun c => point_bytes pc c r) (zrange c k)).
Proof.
  induction k as [|k IH]; intros fuel r c dst Hfuel Hr Hc Hk Hbuf;
    (destruct fuel as [|fuel]; [lia|]); cbn [crop_cols];
    rewrite (size_t_small (xmax bb)) by lia.
  - replace (c <=? xmax bb) with false by (symmetry; apply Z.leb_gt; lia).
    cbn. now rewrite app_nil_r.
  - replace (c <=? xmax bb) with true by (symmetry; apply Z.leb_le; lia).
    assert (Hoff : 0 <= r * row_step pc + c * point_step pc
                   /\ r * row_step pc + c * point_step pc + point_step pc
                      <= Z.of_nat (List.length (data pc))) by nia.
    assert (0 <= r * row_step pc) by nia.
    assert (0 <= c * point_step pc) by nia.
    rewrite (size_t_small (r * row_step pc)) by lia.
    rewrite (size_t_small (c * point_step pc)) by lia.
    rewrite (size_t_small (r * row_step pc + c * point_step pc)) by lia.
    rewrite (size_t_small (_ + point_step pc)) by lia.
    rewrite copy_point_slice_Z by lia.
    rewrite size_t_small by lia.
    rewrite IH by lia.
    rewrite zrange_S. cbn [flat_map]. rewrite <- app_assoc. reflexivity.
Qed.

Hypothesis Hcols : xmax bb - xmin bb + 1 < Z.of_nat n.
Hypothesis Hxmin : 0 <= xmin bb <= xmax bb.
Hypothesis Hymax : 0 <= ymax bb < 2 ^ 63.

Lemma crop_rows_flat_map (k : nat) :
  forall (fuel : nat) (r : Z) (dst : list byte),
    (k < fuel)%nat ->
    0 <= r ->
    r + Z.of_nat k = ymax bb + 1 ->
    ymax bb * row_step pc + xmax bb * point_step pc + point_step pc
      <= Z.of_nat (List.length (data pc)) ->
    crop_rows n fuel pc bb r dst
    = Returns (dst ++ flat_map (row_bytes pc bb) (zrange r k)).
Proof.
  induction k as [|k IH]; intros fuel r dst Hfuel Hr Hk Hbuf;
    (destruct fuel as [|fuel]; [lia|]); cbn [crop_rows];
    rewrite (size_t_small (ymax bb)) by lia.
  - replace (r <=? ymax bb) with false by (symmetry; apply Z.leb_gt; lia).
    cbn. now rewrite app_nil_r.
  - replace (r <=? ymax bb) with true by (symmetry; apply Z.leb_le; lia).
    rewrite (size_t_small (xmin bb)) by lia.
    rewrite (crop_cols_flat_map (Z.to_nat (xmax bb - xmin bb + 1))) by nia.
    rewrite size_t_small by lia.
    rewrite IH by lia.
    rewrite zrange_S. cbn [flat_map]. rewrite <- app_assoc. reflexivity.
Qed.

End CropLoops.

(** * What CropPointCloud returns when its reads stay in the buffer *)

Section CropInBuffer.

Variables (pc : PointCloud2) (bb : BoundingBox).

Hypothesis Hrep : representable pc.
Hypothesis Hbox : int64_box bb.
Hypothesis Hbuf : reads_in_buffer pc bb.


Lemma crop_rows_box_bytes (n : nat) :
  Z.max (Z.max (xmax bb - xmin bb + 1) (ymax bb - ymin bb + 1)) (point_step pc) < Z.of_nat n ->
  crop_rows n n pc bb (size_t (ymin bb)) [] = Returns (box_bytes pc bb).
Proof.
  intros Hn.
  destruct Hrep as [_ _ Hps Hrs Hsize].
  destruct Hbox as (Hx0 & Hx1 & Hy0 & Hy1).
  destruct Hbuf as (Hxmin & Hxle & Hymin & Hyle & Hlast).
  rewrite size_t_small by lia.
  rewrite (crop_rows_flat_map pc bb n) with (k := Z.to_nat (ymax bb - ymin bb + 1));
    try lia.
  reflexivity.
Qed.

Lemma point_bytes_length (c r : Z) :
  0 <= c <= xmax bb -> 0 <= r <= ymax bb ->
  List.length (point_bytes pc c r) = Z.to_nat (point_step pc).
Proof.
  intros Hc Hr.
  destruct Hrep as [_ _ Hps Hrs Hsize].
  destruct Hbuf as (Hxmin & Hxle & Hymin & Hyle & Hlast).
  unfold point_bytes.
  apply Nat2Z.inj. rewrite slice_length; nia.
Qed.

Lemma row_bytes_length (r : Z) :
  0 <= r <= ymax bb ->
  List.length (row_bytes pc bb r)
  = (Z.to_nat (xmax bb - xmin bb + 1) * Z.to_nat (point_step pc))%nat.
Proof.
  intros Hr. unfold row_bytes.
  destruct Hbuf as (Hxmin & Hxle & Hymin & Hyle & Hlast).
  rewrite (flat_map_uniform_length _ (Z.to_nat (point_step pc))).
  - now rewrite zrange_length.
  - intros c Hc. apply zrange_In in Hc. apply point_bytes_length; lia.
Qed.

Lemma box_bytes_length :
  Z.of_nat (List.length (box_bytes pc bb))
  = (xmax bb - xmin bb + 1) * (ymax bb - ymin bb + 1) * point_step pc.
Proof.
  destruct Hrep as [_ _ Hps Hrs Hsize].
  destruct Hbuf as (Hxmin & Hxle & Hymin & Hyle & Hlast).
  unfold box_bytes.
  rewrite (flat_map_uniform_length _ (Z.to_nat (xmax bb - xmin bb + 1) * Z.to_nat (point_step pc))).
  - rewrite zrange_length.
    rewrite !Nat2Z.inj_mul, !Z2Nat.id by lia. ring.
  - intros r Hr. apply zrange_In in Hr. apply row_bytes_length. lia.
Qed.

(** The point in column [i] and row [j] of the crop is the point in column
    [xmin + i] and row [ymin + j] of the original. *)
Lemma box_bytes_point (i j : Z) :
  0 <= i < (xmax bb - xmin bb + 1) -> 0 <= j < (ymax bb - ymin bb + 1) ->
  slice (box_bytes pc bb)
        (j * ((xmax bb - xmin bb + 1) * point_step pc) + i * point_step pc)
        (point_step pc)
  = point_bytes pc (xmin bb + i) (ymin bb + j).
Proof.
  intros Hi Hj.
  destruct Hrep as [_ _ Hps Hrs Hsize].
  destruct Hbuf as (Hxmin & Hxle & Hymin & Hyle & Hlast).
  unfold slice.
  replace (Z.to_nat (j * ((xmax bb - xmin bb + 1) * point_step pc) + i * point_step pc))
    with (Z.to_nat i * Z.to_nat (point_step pc)
          + Z.to_nat j * (Z.to_nat (xmax bb - xmin bb + 1) * Z.to_nat (point_step pc)))%nat by nia.
  rewrite <- skipn_skipn.
  unfold box_bytes.
  rewrite flat_map_uniform_skipn
    by (intros r Hr; apply zrange_In in Hr; apply row_bytes_length; lia).
  rewrite zrange_skipn.
  replace (Z.to_nat (ymax bb - ymin bb + 1) - Z.to_nat j)%nat
    with (S (Z.to_nat ((ymax bb - ymin bb + 1) - j - 1))) by lia.
  rewrite zrange_S. cbn [flat_map].
  rewrite skipn_app.
  replace (Z.to_nat i * Z.to_nat (point_step pc) - List.length (row_bytes pc bb _))%nat
    with 0%nat by (rewrite row_bytes_length by lia; nia).
  cbn [skipn].
  unfold row_bytes at 1.
  rewrite flat_map_uniform_skipn
    by (intros c Hc; apply zrange_In in Hc; apply point_bytes_length; lia).
  rewrite zrange_skipn.
  replace (Z.to_nat (xmax bb - xmin bb + 1) - Z.to_nat i)%nat
    with (S (Z.to_nat ((xmax bb - xmin bb + 1) - i - 1))) by lia.
  rewrite zrange_S. cbn [flat_map]. rewrite <- app_assoc.
  rewrite !Z2Nat.id by lia.
  rewrite firstn_app.
  rewrite point_bytes_length by lia.
  rewrite Nat.sub_diag. cbn [firstn]. rewrite app_nil_r.
  apply firstn_all2. rewrite point_bytes_length by lia. lia.
Qed.

End CropInBuffer.

Lemma in_range_reads_in_buffer (pc : PointCloud2) (bb : BoundingBox) :
  structured pc -> in_range pc bb -> reads_in_buffer pc bb /\ int64_box bb.
Proof.
  intros [[Hh Hw Hps Hrs Hsize] Hrow Hdata] (Hx0 & Hx1 & Hx2 & Hy0 & Hy1 & Hy2).
  unfold reads_in_buffer, int64_box.
  assert (ymax bb * row_step pc <= (height pc - 1) * row_step pc) by nia.
  assert ((xmax bb + 1) * point_step pc <= width pc * point_step pc) by nia.
  repeat split; try lia.
Qed.

(** C1. For a structured cloud and a box with
    [0 <= xmin <= xmax < width] and [0 <= ymin <= ymax < height],
    CropPointCloud returns (given a loop budget above the cloud's width,
    height and point step) a cloud of [xmax-xmin+1] by [ymax-ymin+1] points
    with the schema of the original, whose buffer holds
    [width*height*point_step] bytes: the points of the box row by row, the
    point at column [c - xmin] and row [r - ymin] of the crop having the
    [point_step] bytes of the point at [(c, r)] of the original. *)
Theorem CropPointCloud_in_range (pc : PointCloud2) (bb : BoundingBox) (n : nat) :
  structured pc ->
  in_range pc bb ->
  Z.max (Z.max (width pc) (height pc)) (point_step pc) < Z.of_nat n ->
  exists out : PointCloud2,
    CropPointCloud n pc bb = Returns out
    /\ width out = xmax bb - xmin bb + 1
    /\ height out = ymax bb - ymin bb + 1
    /\ header out = header pc
    /\ fields out = fields pc
    /\ is_bigendian out = is_bigendian pc
    /\ is_dense out = is_dense pc
    /\ point_step out = point_step pc
    /\ row_step out = width out * point_step out
    /\ Z.of_nat (List.length (data out)) = width out * height out * point_step out
    /\ data out = box_bytes pc bb
    /\ forall c r : Z,
         xmin bb <= c <= xmax bb -> ymin bb <= r <= ymax bb ->
         point_bytes out (c - xmin bb) (r - ymin bb) = point_bytes pc c r
         /\ Z.of_nat (List.length (point_bytes pc c r)) = point_step pc.
Proof.
  intros Hstr Hin Hn.
  destruct (in_range_reads_in_buffer pc bb Hstr Hin) as [Hbuf Hbox].
  destruct Hstr as [Hrep Hrow Hdata].
  pose proof Hrep as [Hh Hw Hps Hrs Hsize].
  pose proof Hin as (Hx0 & Hx1 & Hx2 & Hy0 & Hy1 & Hy2).
  assert (HW : (xmax bb - xmin bb + 1) * point_step pc <= width pc * point_step pc)
    by nia.
  assert (HW0 : 0 <= (xmax bb - xmin bb + 1) * point_step pc) by nia.
  unfold CropPointCloud.
  rewrite (crop_rows_box_bytes pc bb Hrep Hbox Hbuf) by lia.
  rewrite (int64_small (ymax bb - ymin bb)), (int64_small (xmax bb - xmin bb)) by lia.
  rewrite !int64_small by lia.
  rewrite !(uint32_small (_ + 1)) by lia.
  rewrite uint32_small by lia.
  eexists. split; [reflexivity|]. cbn [width height header fields is_bigendian
    is_dense point_step row_step data].
  repeat (split; [reflexivity|]).
  split; [apply (box_bytes_length pc bb Hrep Hbuf)|].
  split; [reflexivity|].
  intros c r Hc Hr. split.
  - unfold point_bytes at 1.
    cbn [width height header fields is_bigendian is_dense point_step row_step data].
    rewrite (box_bytes_point pc bb Hrep Hbuf) by lia.
    f_equal; lia.
  - rewrite (point_bytes_length pc bb Hrep Hbuf) by lia. lia.
Qed.

(** C1, witness: the 2 by 2 box at the corner of the 4 by 4 bench cloud. *)
Lemma CropPointCloud_in_range_witness :
  structured Bench.cloud_4x4
  /\ in_range Bench.cloud_4x4 (Bench.box "Drill" 0 0 1 1)
  /\ exists out : PointCloud2,
       CropPointCloud 20 Bench.cloud_4x4 (Bench.box "Drill" 0 0 1 1) = Returns out
       /\ width out = 2 /\ height out = 2
       /\ Z.of_nat (List.length (data out)) = 48.
Proof.
  assert (Hs : structured Bench.cloud_4x4)
    by (repeat constructor; simpl; lia).
  assert (Hi : in_range Bench.cloud_4x4 (Bench.box "Drill" 0 0 1 1))
    by (unfold in_range; simpl; lia).
  split; [exact Hs|]. split; [exact Hi|].
  destruct (CropPointCloud_in_range Bench.cloud_4x4 (Bench.box "Drill" 0 0 1 1) 20 Hs Hi)
    as (out & Hout & Hw & Hh & _ & _ & _ & _ & Hp & _ & Hlen & _).
  - simpl. lia.
  - exists out. rewrite Hlen, Hw, Hh, Hp. simpl. repeat split. exact Hout.
Defined.

(** C8, as the code has it. CropPointCloud never compares the box with the
    width and height of the cloud and clamps nothing: whenever the last
    point it reads ends inside the buffer, it returns a cloud of
    [xmax-xmin+1] by [ymax-ymin+1] points, the point [(i, j)] of which is
    the [point_step] bytes found at [(ymin+j)*row_step + (xmin+i)*point_step]
    of the original buffer, whatever the width and height of the original. *)
Theorem CropPointCloud_unchecked (pc : PointCloud2) (bb : BoundingBox) (n : nat) :
  representable pc ->
  int64_box bb ->
  reads_in_buffer pc bb ->
  Z.max (Z.max (xmax bb - xmin bb + 1) (ymax bb - ymin bb + 1)) (point_step pc)
    < Z.of_nat n ->
  exists out : PointCloud2,
    CropPointCloud n pc bb = Returns out
    /\ width out = uint32 (xmax bb - xmin bb + 1)
    /\ height out = uint32 (ymax bb - ymin bb + 1)
    /\ Z.of_nat (List.length (data out))
       = (xmax bb - xmin bb + 1) * (ymax bb - ymin bb + 1) * point_step pc
    /\ forall i j : Z,
         0 <= i <= xmax bb - xmin bb -> 0 <= j <= ymax bb - ymin bb ->
         slice (data out)
               (j * ((xmax bb - xmin bb + 1) * point_step pc) + i * point_step pc)
               (point_step pc)
         = slice (data pc)
                 ((ymin bb + j) * row_step pc + (xmin bb + i) * point_step pc)
                 (point_step pc).
Proof.
  intros Hrep Hbox Hbuf Hn.
  pose proof Hbox as (Hx0 & Hx1 & Hy0 & Hy1).
  pose proof Hbuf as (Hxmin & Hxle & Hymin & Hyle & Hlast).
  unfold CropPointCloud.
  rewrite (crop_rows_box_bytes pc bb Hrep Hbox Hbuf) by lia.
  rewrite !uint32_int64.
  rewrite (int64_small (ymax bb - ymin bb)), (int64_small (xmax bb - xmin bb)) by lia.
  eexists. split; [reflexivity|].
  cbn [width height data].
  repeat (split; [reflexivity|]).
  split; [apply (box_bytes_length pc bb Hrep Hbuf)|].
  intros i j Hi Hj.
  now rewrite (box_bytes_point pc bb Hrep Hbuf) by lia.
Qed.

(** C8, witness: a box one column wider than the 4 by 4 bench cloud. *)
Lemma CropPointCloud_unchecked_witness :
  ~ in_range Bench.cloud_4x4 (Bench.box "Drill" 0 0 4 0)
  /\ exists out : PointCloud2,
       CropPointCloud 20 Bench.cloud_4x4 (Bench.box "Drill" 0 0 4 0) = Returns out
       /\ width out = 5 /\ height out = 1.
Proof.
  split.
  - unfold in_range. simpl. lia.
  - destruct (CropPointCloud_unchecked Bench.cloud_4x4 (Bench.box "Drill" 0 0 4 0) 20)
      as (out & Hout & Hw & Hh & _).
    + repeat constructor; simpl; lia.
    + unfold int64_box. simpl. lia.
    + unfold reads_in_buffer. simpl. lia.
    + simpl. lia.
    + exists out. rewrite Hw, Hh. repeat split. exact Hout.
Defined.

(** C8 fails on the code: the box (0,0)-(4,0) reaches past the last column
    of the 4 by 4 bench cloud, and CropPointCloud returns, with no error, a
    cloud of five points whose fifth point is the first point of the next
    row of the original. *)
Lemma CropPointCloud_out_of_range_returns :
  xmax (Bench.box "Drill" 0 0 4 0) >= width Bench.cloud_4x4
  /\ exists out : PointCloud2,
       CropPointCloud 20 Bench.cloud_4x4 (Bench.box "Drill" 0 0 4 0) = Returns out
       /\ width out = 5
       /\ height out = 1
       /\ point_bytes out 4 0 = point_bytes Bench.cloud_4x4 0 1.
Proof.
  split; [simpl; lia|].
  eexists. split; [vm_compute; reflexivity|].
  split; [reflexivity|]. split; [reflexivity|].
  vm_compute. reflexivity.
Qed.

(** * The centroid *)

Lemma fold_add_unless_inf (points : list pcl.PointXYZ) :
  forall centroid : pcl.CentroidPoint,
    fold_left add_unless_inf points centroid
    = fold_left pcl.add (filter no_inf points) centroid.
Proof.
  induction points as [|p points IH]; intros centroid; [reflexivity|].
  cbn [fold_left filter]. unfold add_unless_inf at 2, no_inf at 1.
  destruct (pcl.has_inf p); cbn [negb fold_left]; apply IH.
Qed.

Lemma fold_add_num_points (l : list pcl.PointXYZ) :
  forall centroid : pcl.CentroidPoint,
    pcl.num_points_ (fold_left pcl.add l centroid)
    = match l with
      | [] => pcl.num_points_ centroid
      | _ => size_t (pcl.num_points_ centroid + Z.of_nat (List.length l))
      end.
Proof.
  induction l as [|p l IH]; intros centroid; [reflexivity|].
  cbn [fold_left]. rewrite IH. destruct l as [|q l].
  - reflexivity.
  - cbn [pcl.add pcl.num_points_]. unfold size_t.
    rewrite Zplus_mod_idemp_l. f_equal. cbn [List.length]. lia.
Qed.

Lemma fold_add_xyz (l : list pcl.PointXYZ) :
  forall centroid : pcl.CentroidPoint,
    pcl.xyz (fold_left pcl.add l centroid)
    = {| pcl.x := fold_left float_add (map pcl.x l) (pcl.x (pcl.xyz centroid));
         pcl.y := fold_left float_add (map pcl.y l) (pcl.y (pcl.xyz centroid));
         pcl.z := fold_left float_add (map pcl.z l) (pcl.z (pcl.xyz centroid)) |}.
Proof.
  induction l as [|p l IH]; intros centroid.
  - now destruct centroid as [k [a b c]].
  - cbn [fold_left map]. now rewrite IH.
Qed.

Lemma filter_no_inf_idem (points : list pcl.PointXYZ) :
  filter no_inf (filter no_inf points) = filter no_inf points.
Proof.
  induction points as [|p points IH]; [reflexivity|].
  cbn [filter]. destruct (no_inf p) eqn:Hp; [|exact IH].
  cbn [filter]. now rewrite Hp, IH.
Qed.

Lemma centroid_location_filter (points : list pcl.PointXYZ) :
  centroid_location points = centroid_location (filter no_inf points).
Proof.
  unfold centroid_location.
  now rewrite !fold_add_unless_inf, filter_no_inf_idem.
Qed.

Lemma centroid_location_none (points : list pcl.PointXYZ) :
  filter no_inf points = [] ->
  centroid_location points = pcl.PointXYZ_default.
Proof.
  intros Hnone. unfold centroid_location.
  now rewrite fold_add_unless_inf, Hnone.
Qed.

Lemma centroid_location_mean (points : list pcl.PointXYZ) :
  0 < Z.of_nat (List.length (filter no_inf points)) < 2 ^ 64 ->
  centroid_location points = float_mean (filter no_inf points).
Proof.
  intros Hlen. unfold centroid_location, pcl.get.
  rewrite fold_add_unless_inf, fold_add_num_points, fold_add_xyz.
  destruct (filter no_inf points) as [|p kept] eqn:Hkept; [cbn in Hlen; lia|].
  cbn [pcl.CentroidPoint_new pcl.num_points_ Z.add].
  rewrite size_t_small by lia.
  replace (Z.of_nat (List.length (p :: kept)) =? 0) with false
    by (symmetry; apply Z.eqb_neq; lia).
  reflexivity.
Qed.

Lemma centroid_location_remove_inf (before after : list pcl.PointXYZ) (p : pcl.PointXYZ) :
  pcl.has_inf p = true ->
  centroid_location (before ++ p :: after) = centroid_location (before ++ after).
Proof.
  intros Hp.
  rewrite (centroid_location_filter (before ++ p :: after)).
  rewrite (centroid_location_filter (before ++ after)).
  rewrite !filter_app. cbn [filter]. unfold no_inf at 2. now rewrite Hp.
Qed.

(** C2, as the code has it. GetCentroid rejects a point exactly when one of
    its coordinates is infinite; a NaN coordinate does not reject it.  The
    position it returns is the centroid of the points it keeps, which is
    their mean in binary32 arithmetic (the running sums divided by the
    count) when there is one; removing a point with an infinite coordinate
    never changes the result. *)
Theorem GetCentroid_rejects_inf_only {P : Platform} (original_pc : PointCloud2) (w : Node) :
  let points := fromPCLPointCloud2 original_pc in
  let kept := filter no_inf points in
  let position := geometry_msgs.position (geometry_msgs.pose (fst (GetCentroid original_pc w))) in
  (geometry_msgs.x position, geometry_msgs.y position, geometry_msgs.z position)
  = (double_of_float (pcl.x (centroid_location kept)),
     double_of_float (pcl.y (centroid_location kept)),
     double_of_float (pcl.z (centroid_location kept)))
  /\ (forall p : pcl.PointXYZ,
        In p kept <->
        In p points /\ isinf (pcl.x p) = false /\ isinf (pcl.y p) = false
                    /\ isinf (pcl.z p) = false)
  /\ (0 < Z.of_nat (List.length kept) < 2 ^ 64 ->
      centroid_location points = float_mean kept)
  /\ (forall (before after : list pcl.PointXYZ) (p : pcl.PointXYZ),
        points = before ++ p :: after ->
        pcl.has_inf p = true ->
        centroid_location points = centroid_location (before ++ after)).
Proof.
  intros points kept position. subst position.
  split; [|split; [|split]].
  - cbn [GetCentroid fst geometry_msgs.pose geometry_msgs.position
         geometry_msgs.x geometry_msgs.y geometry_msgs.z].
    fold points. now rewrite (centroid_location_filter points).
  - intros p. subst kept. rewrite filter_In. unfold no_inf, pcl.has_inf.
    rewrite negb_true_iff, !orb_false_iff. tauto.
  - intros Hlen. now apply centroid_location_mean.
  - intros before after p Hpoints Hp. rewrite Hpoints.
    now apply centroid_location_remove_inf.
Qed.

(** C2, witness: the corner crop of the bench cloud, whose first point is
    (inf,0,0). *)
Lemma GetCentroid_rejects_inf_only_witness :
  @fromPCLPointCloud2 (Bench.platform true) Bench.cloud_corner
  = [] ++ Bench.pt_inf :: [Bench.pt_ones; Bench.pt_ones; Bench.pt_ones]
  /\ pcl.has_inf Bench.pt_inf = true
  /\ centroid_location (@fromPCLPointCloud2 (Bench.platform true) Bench.cloud_corner)
     = centroid_location ([] ++ [Bench.pt_ones; Bench.pt_ones; Bench.pt_ones])
  /\ centroid_location (@fromPCLPointCloud2 (Bench.platform true) Bench.cloud_corner)
     = Bench.pt_ones.
Proof.
  assert (Hpoints : @fromPCLPointCloud2 (Bench.platform true) Bench.cloud_corner
                    = [] ++ Bench.pt_inf :: [Bench.pt_ones; Bench.pt_ones; Bench.pt_ones])
    by (vm_compute; reflexivity).
  assert (Hinf : pcl.has_inf Bench.pt_inf = true) by reflexivity.
  split; [exact Hpoints|]. split; [exact Hinf|].
  destruct (@GetCentroid_rejects_inf_only (Bench.platform true) Bench.cloud_corner
              (Bench.node false Bench.no_artifact))
    as (_ & _ & Hmean & Hremove).
  split.
  - exact (Hremove [] [Bench.pt_ones; Bench.pt_ones; Bench.pt_ones] Bench.pt_inf Hpoints Hinf).
  - rewrite Hmean.
    + vm_compute. reflexivity.
    + vm_compute. split; reflexivity.
Defined.

(** C2 fails on the code. A point with a NaN coordinate is not finite, yet
    GetCentroid adds it: with the points (1,1,1), (nan,0,0), (1,1,1),
    (1,1,1) the centroid has x = NaN, and removing the NaN point changes the
    result.  And the centroid of all-identical finite points need not be
    that point: two points at the largest float sum to infinity. *)
Lemma GetCentroid_keeps_nan :
  isfinite (pcl.x Bench.pt_nan) = false
  /\ @fromPCLPointCloud2 (Bench.platform true) Bench.cloud_nan
     = [Bench.pt_ones; Bench.pt_nan; Bench.pt_ones; Bench.pt_ones]
  /\ pcl.x (centroid_location [Bench.pt_ones; Bench.pt_nan; Bench.pt_ones; Bench.pt_ones])
     = S754_nan
  /\ centroid_location [Bench.pt_ones; Bench.pt_ones; Bench.pt_ones] = Bench.pt_ones
  /\ centroid_location [Bench.pt_ones; Bench.pt_nan; Bench.pt_ones; Bench.pt_ones]
     <> centroid_location [Bench.pt_ones; Bench.pt_ones; Bench.pt_ones]
  /\ isfinite Bench.flt_max = true
  /\ pcl.x (centroid_location [Bench.pt_max; Bench.pt_max]) = S754_infinity false.
Proof.
  split; [reflexivity|].
  split; [vm_compute; reflexivity|].
  split; [vm_compute; reflexivity|].
  split; [vm_compute; reflexivity|].
  split; [vm_compute; discriminate|].
  split; vm_compute; reflexivity.
Qed.

(** The example of the specification: the 2 by 2 corner of a 4 by 4 cloud
    of points (1,1,1) whose corner is (inf,0,0) has its centroid at (1,1,1). *)
Example centroid_of_corner_crop :
  exists cropped : PointCloud2,
    CropPointCloud 20 Bench.cloud_4x4 (Bench.box "Drill" 0 0 1 1) = Returns cropped
    /\ centroid_location (@fromPCLPointCloud2 (Bench.platform true) cropped)
       = Bench.pt_ones.
Proof.
  eexists. split; [vm_compute; reflexivity|].
  vm_compute. reflexivity.
Qed.

(** * Classification *)

Lemma classify_unrecognized (box : BoundingBox)
  (scoring_pose : geometry_msgs.PoseStamped) (w : Node) :
  ~ In (Class_ box) vocabulary ->
  classify box scoring_pose w = w.
Proof.
  intros Hnot. unfold classify.
  repeat match goal with
         | |- context [String.eqb (Class_ box) ?s] =>
             destruct (String.eqb_spec (Class_ box) s) as [Heq|_];
             [exfalso; apply Hnot; rewrite Heq; cbn; tauto|]
         end.
  reflexivity.
Qed.

Lemma classify_recognized (box : BoundingBox)
  (scoring_pose : geometry_msgs.PoseStamped) (w : Node) :
  In (Class_ box) vocabulary ->
  have_an_artifact_to_report (classify box scoring_pose w) = true
  /\ location (artifact_to_report (classify box scoring_pose w))
     = geometry_msgs.position (geometry_msgs.pose scoring_pose).
Proof.
  intros Hin. unfold classify.
  destruct scoring_pose as [h [[px py pz] q]].
  cbn in Hin.
  destruct Hin as [H|[H|[H|[H|[H|[]]]]]]; rewrite <- H; cbn; split; reflexivity.
Qed.

(** * What goes on the wire *)

(** The record ReportArtifacts serializes holds the type of the saved
    artifact, as a uint32, and its location as the position of the pose. *)
Lemma artifact_message_fields {P : Platform} (a : Artifact) :
  artifact_message a
  = {| subt.type := uint32 (ArtifactType_uint32 (type a));
       subt.pose := {| subt.position := location a |} |}.
Proof.
  unfold artifact_message. now destruct a as [t [px py pz]].
Qed.

Lemma classify_sent (box : BoundingBox) (scoring_pose : geometry_msgs.PoseStamped)
  (w : Node) :
  sent (classify box scoring_pose w) = sent w.
Proof.
  unfold classify.
  repeat match goal with
         | |- context [String.eqb (Class_ box) ?s] =>
             destruct (String.eqb (Class_ box) s)
         end; reflexivity.
Qed.

Lemma ReportArtifacts_pending {P : Platform} (w : Node) :
  have_an_artifact_to_report w = true ->
  sent (ReportArtifacts w)
  = sent w ++ [(snd (SerializeToString (artifact_message (artifact_to_report w))),
                kBaseStationName)]
  /\ have_an_artifact_to_report (ReportArtifacts w) = true
  /\ artifact_to_report (ReportArtifacts w) = artifact_to_report w
  /\ rosout (ReportArtifacts w)
     = rosout w ++ (if fst (SerializeToString (artifact_message (artifact_to_report w)))
                    then []
                    else [ERROR_serializing (artifact_message (artifact_to_report w))]).
Proof.
  intros Hpending. unfold ReportArtifacts. rewrite Hpending. cbn [negb].
  destruct (SerializeToString (artifact_message (artifact_to_report w)))
    as [[|] serializedData]; cbn; rewrite ?app_nil_r; auto.
Qed.

(** * A crop without a point to average *)

(** C5, as the code has it. When every point of the cropped cloud has an
    infinite coordinate, GetCentroid signals nothing: it returns the pose at
    (0,0,0) with the identity orientation, and for a label of the vocabulary
    and a transform that succeeds ProcessDetection stores the transformed
    (0,0,0) as the location of the artifact and sets the flag, and the next
    tick of the reporter sends that artifact, with that location, to the
    base station. *)
Theorem GetCentroid_of_no_kept_point {P : Platform} (original_pc : PointCloud2) (w : Node) :
  filter no_inf (fromPCLPointCloud2 original_pc) = [] ->
  geometry_msgs.position (geometry_msgs.pose (fst (GetCentroid original_pc w)))
  = geometry_msgs.Point_zero
  /\ geometry_msgs.orientation (geometry_msgs.pose (fst (GetCentroid original_pc w)))
     = {| geometry_msgs.qx := zero; geometry_msgs.qy := zero;
          geometry_msgs.qz := zero; geometry_msgs.qw := one |}
  /\ forall (n : nat) (cloud_msg : PointCloud2) (box : BoundingBox)
            (tf_buffer : tf2_Buffer) (scoring_pose : geometry_msgs.PoseStamped),
       CropPointCloud n cloud_msg box = Returns original_pc ->
       In (Class_ box) vocabulary ->
       tf2_transform tf_buffer (fst (GetCentroid original_pc w))
                     (artifact_origin_frame w) Duration_1_0 = Some scoring_pose ->
       exists w' : Node,
         process_box n cloud_msg tf_buffer box w = Completed w'
         /\ have_an_artifact_to_report w' = true
         /\ location (artifact_to_report w')
            = geometry_msgs.position (geometry_msgs.pose scoring_pose)
         /\ sent (ReportArtifacts w')
            = sent w
              ++ [(snd (SerializeToString
                          {| subt.type :=
                               uint32 (ArtifactType_uint32 (type (artifact_to_report w')));
                             subt.pose :=
                               {| subt.position :=
                                    geometry_msgs.position
                                      (geometry_msgs.pose scoring_pose) |} |}),
                   kBaseStationName)].
Proof.
  intros Hnone. split; [|split].
  - cbn [GetCentroid fst geometry_msgs.pose geometry_msgs.position].
    now rewrite (centroid_location_none _ Hnone).
  - reflexivity.
  - intros n cloud_msg box tf_buffer scoring_pose Hcrop Hlabel Htf.
    unfold process_box. rewrite Hcrop.
    destruct (GetCentroid original_pc w) as [centroid w1] eqn:Hc.
    assert (Hw1 : w1 = clock_tick w) by (unfold GetCentroid in Hc; congruence).
    subst w1. cbn [fst] in Htf. cbn [artifact_origin_frame clock_tick].
    rewrite Htf.
    destruct (classify_recognized box scoring_pose (clock_tick w) Hlabel)
      as (Hflag & Hloc).
    eexists. split; [reflexivity|]. split; [exact Hflag|]. split; [exact Hloc|].
    destruct (ReportArtifacts_pending _ Hflag) as (Hsent & _).
    rewrite Hsent, artifact_message_fields, Hloc, classify_sent. reflexivity.
Qed.

(** C5, witness: the bench cloud with the single point (inf,0,0), a box
    labelled Drill and a buffer that knows the transform. *)
Lemma GetCentroid_of_no_kept_point_witness :
  filter no_inf (@fromPCLPointCloud2 (Bench.platform true) Bench.cloud_inf) = []
  /\ exists w' : Node,
       @process_box (Bench.platform true) 20 Bench.cloud_inf 0
         (Bench.box "Drill" 0 0 0 0) (Bench.node false Bench.no_artifact) = Completed w'
       /\ have_an_artifact_to_report w' = true
       /\ location (artifact_to_report w') = geometry_msgs.Point_zero
       /\ sent (@ReportArtifacts (Bench.platform true) w')
          = [("2", "base_station")]%string.
Proof.
  assert (Hnone : filter no_inf (@fromPCLPointCloud2 (Bench.platform true) Bench.cloud_inf) = [])
    by (vm_compute; reflexivity).
  split; [exact Hnone|].
  destruct (proj2 (proj2 (@GetCentroid_of_no_kept_point (Bench.platform true)
                            Bench.cloud_inf (Bench.node false Bench.no_artifact) Hnone))
              20%nat Bench.cloud_inf (Bench.box "Drill" 0 0 0 0) 0
              {| geometry_msgs.header :=
                   {| seq := 0; stamp := 0; frame_id := "artifact_origin" |};
                 geometry_msgs.pose :=
                   {| geometry_msgs.position := geometry_msgs.Point_zero;
                      geometry_msgs.orientation :=
                        {| geometry_msgs.qx := zero; geometry_msgs.qy := zero;
                           geometry_msgs.qz := zero; geometry_msgs.qw := one |} |} |})
    as (w' & Hrun & Hflag & Hloc & Hsent).
  - vm_compute. reflexivity.
  - cbn. tauto.
  - vm_compute. reflexivity.
  - exists w'. split; [exact Hrun|]. split; [exact Hflag|]. split; [exact Hloc|].
    rewrite Hsent.
    assert (Hw' : @process_box (Bench.platform true) 20 Bench.cloud_inf 0
                    (Bench.box "Drill" 0 0 0 0) (Bench.node false Bench.no_artifact)
                  = Completed
                      (classify (Bench.box "Drill" 0 0 0 0)
                         {| geometry_msgs.header :=
                              {| seq := 0; stamp := 0; frame_id := "artifact_origin" |};
                            geometry_msgs.pose :=
                              {| geometry_msgs.position := geometry_msgs.Point_zero;
                                 geometry_msgs.orientation :=
                                   {| geometry_msgs.qx := zero; geometry_msgs.qy := zero;
                                      geometry_msgs.qz := zero;
                                      geometry_msgs.qw := one |} |} |}
                         (clock_tick (Bench.node false Bench.no_artifact))))
      by (vm_compute; reflexivity).
    rewrite Hw' in Hrun. injection Hrun as <-.
    vm_compute. reflexivity.
Defined.

(** C5 fails on the code: the only point in the box is (inf,0,0), so no
    point has all its coordinates finite; ProcessDetection returns normally
    with a drill at (0,0,0) stored and the flag set, and the next tick of
    the reporter sends it. *)
Lemma ProcessDetection_reports_origin :
  filter (fun p => isfinite (pcl.x p) && isfinite (pcl.y p) && isfinite (pcl.z p))
         (@fromPCLPointCloud2 (Bench.platform true) Bench.cloud_inf) = []
  /\ CropPointCloud 20 Bench.cloud_inf (Bench.box "Drill" 0 0 0 0) = Returns Bench.cloud_inf
  /\ exists w' : Node,
       @ProcessDetection (Bench.platform true) 20 Bench.cloud_inf
         (Bench.boxes [Bench.box "Drill" 0 0 0 0]) 0 (Bench.node false Bench.no_artifact)
       = Completed w'
       /\ have_an_artifact_to_report w' = true
       /\ artifact_to_report w'
          = {| type := subt.TYPE_DRILL; location := geometry_msgs.Point_zero |}
       /\ sent (@ReportArtifacts (Bench.platform true) w') = [("2", "base_station")]%string.
Proof.
  split; [vm_compute; reflexivity|].
  split; [vm_compute; reflexivity|].
  eexists. split; [vm_compute; reflexivity|].
  split; [reflexivity|]. split; [reflexivity|].
  vm_compute. reflexivity.
Qed.

(** * The reporter *)

Lemma ReportArtifacts_iter {P : Platform} (ticks : nat) :
  forall w : Node,
    have_an_artifact_to_report w = true ->
    sent (Nat.iter ticks ReportArtifacts w)
    = sent w ++ repeat (snd (SerializeToString (artifact_message (artifact_to_report w))),
                        kBaseStationName) ticks
    /\ have_an_artifact_to_report (Nat.iter ticks ReportArtifacts w) = true
    /\ artifact_to_report (Nat.iter ticks ReportArtifacts w) = artifact_to_report w.
Proof.
  induction ticks as [|ticks IH]; intros w Hpending.
  - cbn. now rewrite app_nil_r.
  - rewrite !Nat.iter_succ. destruct (IH w Hpending) as (Hsent & Hflag & Hart).
    destruct (ReportArtifacts_pending _ Hflag) as (Hsent' & Hflag' & Hart' & _).
    rewrite Hsent', Hsent, Hart', Hart, Hflag', <- app_assoc.
    repeat split. f_equal.
    change (?m :: nil) with (repeat m 1). rewrite <- repeat_app.
    f_equal. lia.
Qed.

(** C3. A tick of the reporter with the flag down sends nothing and changes
    nothing.  A tick with the flag up hands exactly one message to the comms
    client: the serialization of the record that holds the type of the saved
    artifact and its location, addressed to the base station.  It leaves the
    flag up and the artifact as it was; so any number of ticks sends that
    many copies of the same message.  After the base-station callback has
    run, a tick sends nothing. *)
Theorem ReportArtifacts_tick {P : Platform} (w : Node) :
  (have_an_artifact_to_report w = false -> ReportArtifacts w = w)
  /\ (have_an_artifact_to_report w = true ->
      sent (ReportArtifacts w)
      = sent w
        ++ [(snd (SerializeToString
                    {| subt.type :=
                         uint32 (ArtifactType_uint32 (type (artifact_to_report w)));
                       subt.pose :=
                         {| subt.position := location (artifact_to_report w) |} |}),
             kBaseStationName)]
      /\ have_an_artifact_to_report (ReportArtifacts w) = true
      /\ artifact_to_report (ReportArtifacts w) = artifact_to_report w
      /\ forall ticks : nat,
           sent (Nat.iter ticks ReportArtifacts w)
           = sent w
             ++ repeat
                  (snd (SerializeToString
                          {| subt.type :=
                               uint32 (ArtifactType_uint32 (type (artifact_to_report w)));
                             subt.pose :=
                               {| subt.position :=
                                    location (artifact_to_report w) |} |}),
                   kBaseStationName) ticks
           /\ have_an_artifact_to_report (Nat.iter ticks ReportArtifacts w) = true)
  /\ (forall (srcAddress dstAddress data : string) (dstPort : Z),
        ReportArtifacts (BaseStationCallback srcAddress dstAddress dstPort data w)
        = BaseStationCallback srcAddress dstAddress dstPort data w).
Proof.
  split; [|split].
  - intros Hidle. unfold ReportArtifacts. now rewrite Hidle.
  - intros Hpending. rewrite <- !artifact_message_fields.
    destruct (ReportArtifacts_pending w Hpending) as (Hsent & Hflag & Hart & _).
    repeat (split; [assumption|]).
    intros ticks. destruct (ReportArtifacts_iter ticks w Hpending) as (Hs & Hf & _).
    now split.
  - intros srcAddress dstAddress data dstPort.
    unfold BaseStationCallback.
    destruct (ParseFromString data) as [parsed res]. reflexivity.
Qed.

(** C3, witness: three ticks with a phone pending. *)
Lemma ReportArtifacts_tick_witness :
  have_an_artifact_to_report (Bench.node true Bench.a_phone) = true
  /\ sent (Nat.iter 3 (@ReportArtifacts (Bench.platform true)) (Bench.node true Bench.a_phone))
     = [("5", "base_station"); ("5", "base_station"); ("5", "base_station")]%string
  /\ @ReportArtifacts (Bench.platform true) (Bench.node false Bench.a_phone)
     = Bench.node false Bench.a_phone.
Proof.
  split; [reflexivity|].
  split.
  - exact (proj1 (proj2 (proj2 (proj2
            (proj1 (proj2 (@ReportArtifacts_tick (Bench.platform true)
                             (Bench.node true Bench.a_phone)))
               eq_refl))) 3%nat)).
  - exact (proj1 (@ReportArtifacts_tick (Bench.platform true)
                    (Bench.node false Bench.a_phone)) eq_refl).
Defined.




(** * The base-station callback *)

(** C4, what the code does. When the payload does not parse, the callback
    logs the error and carries on: it logs the location found in the
    unparsed record as received and clears the flag.  The saved artifact and
    the messages sent are untouched. *)
Theorem BaseStationCallback_clears_after_failed_parse {P : Platform}
  (srcAddress dstAddress data : string) (dstPort : Z) (w : Node) :
  fst (ParseFromString data) = false ->
  have_an_artifact_to_report (BaseStationCallback srcAddress dstAddress dstPort data w)
  = false
  /\ (exists location : geometry_msgs.Point,
        rosout (BaseStationCallback srcAddress dstAddress dstPort data w)
        = rosout w ++ [ERROR_deserializing; INFO_received location])
  /\ artifact_to_report (BaseStationCallback srcAddress dstAddress dstPort data w)
     = artifact_to_report w
  /\ sent (BaseStationCallback srcAddress dstAddress dstPort data w) = sent w.
Proof.
  intros Hfail. unfold BaseStationCallback.
  destruct (ParseFromString data) as [parsed res]. cbn [fst] in Hfail. subst parsed.
  cbn. split; [reflexivity|]. split; [|split; reflexivity].
  eexists. rewrite <- app_assoc. reflexivity.
Qed.

(** C4, at the failing input: a phone is pending and the payload is not a
    record; the flag is cleared. *)
Lemma BaseStationCallback_clears_after_failed_parse_witness :
  fst (@ParseFromString (Bench.platform true) "x") = false
  /\ have_an_artifact_to_report (Bench.node true Bench.a_phone) = true
  /\ have_an_artifact_to_report
       (@BaseStationCallback (Bench.platform true) "base_station" "anymal_b" 4100 "x"
          (Bench.node true Bench.a_phone)) = false.
Proof.
  split; [reflexivity|]. split; [reflexivity|].
  exact (proj1 (@BaseStationCallback_clears_after_failed_parse (Bench.platform true)
                  "base_station" "anymal_b" "x" 4100 (Bench.node true Bench.a_phone)
                  eq_refl)).
Defined.

(** * The detection callback *)

Lemma process_boxes_app {P : Platform} (n : nat) (cloud_msg : PointCloud2)
  (tf_buffer : tf2_Buffer) (before after : list BoundingBox) :
  forall w : Node,
    process_boxes n cloud_msg tf_buffer (before ++ after) w
    = match process_boxes n cloud_msg tf_buffer before w with
      | Completed w' => process_boxes n cloud_msg tf_buffer after w'
      | stopped => stopped
      end.
Proof.
  induction before as [|box before IH]; intros w; [reflexivity|].
  cbn [app process_boxes].
  destruct (process_box n cloud_msg tf_buffer box w); try reflexivity.
  apply IH.
Qed.

(** C6, as the code has it. ProcessDetection catches nothing: when the
    transform of one box throws, the exception leaves the callback at that
    box.  The boxes before it have been processed, nothing is logged for the
    failure, and no box after it is processed, whatever those boxes are. *)
Theorem ProcessDetection_transform_failure_aborts {P : Platform} (n : nat)
  (cloud_msg cropped_pc : PointCloud2) (bb_msg : BoundingBoxes) (tf_buffer : tf2_Buffer)
  (before after : list BoundingBox) (box : BoundingBox) (w w1 : Node) :
  bounding_boxes bb_msg = before ++ box :: after ->
  process_boxes n cloud_msg tf_buffer before w = Completed w1 ->
  CropPointCloud n cloud_msg box = Returns cropped_pc ->
  tf2_transform tf_buffer (fst (GetCentroid cropped_pc w1))
                (artifact_origin_frame w1) Duration_1_0 = None ->
  ProcessDetection n cloud_msg bb_msg tf_buffer w = TransformException (clock_tick w1)
  /\ same_report w1 (clock_tick w1).
Proof.
  intros Hboxes Hbefore Hcrop Htf. split; [|now repeat split].
  unfold ProcessDetection. rewrite Hboxes, process_boxes_app, Hbefore.
  cbn [process_boxes]. unfold process_box. rewrite Hcrop.
  destruct (GetCentroid cropped_pc w1) as [centroid w2] eqn:Hc.
  assert (Hw2 : w2 = clock_tick w1) by (unfold GetCentroid in Hc; congruence).
  subst w2. cbn [fst] in Htf. cbn [artifact_origin_frame clock_tick].
  now rewrite Htf.
Qed.

(** C6, witness: two boxes on the bench cloud and a buffer whose first
    transform is for stamp 1; the first box is stamped 0. *)
Lemma ProcessDetection_transform_failure_aborts_witness :
  @ProcessDetection (Bench.platform true) 20 Bench.cloud_4x4
    (Bench.boxes [Bench.box "Backpack" 1 1 2 2; Bench.box "Drill" 2 2 3 3]) 1
    (Bench.node false Bench.no_artifact)
  = TransformException (clock_tick (Bench.node false Bench.no_artifact)).
Proof.
  refine (proj1 (@ProcessDetection_transform_failure_aborts (Bench.platform true) 20
                   Bench.cloud_4x4
                   (Bench.cloud 2 2 (Bench.p_ones ++ Bench.p_ones ++ Bench.p_ones ++ Bench.p_ones))
                   (Bench.boxes [Bench.box "Backpack" 1 1 2 2; Bench.box "Drill" 2 2 3 3])
                   1 [] [Bench.box "Drill" 2 2 3 3] (Bench.box "Backpack" 1 1 2 2)
                   (Bench.node false Bench.no_artifact)
                   (Bench.node false Bench.no_artifact) _ _ _ _)).
  - reflexivity.
  - reflexivity.
  - vm_compute. reflexivity.
  - vm_compute. reflexivity.
Defined.

(** C6 fails on the code: the transform of the first of two boxes is
    unavailable; the callback ends with the exception, nothing is logged,
    and the second box, a drill whose transform is available, is never
    processed: no artifact is pending afterwards, while the second box
    processed on its own stores the drill. *)
Lemma ProcessDetection_skips_the_rest :
  (exists w' : Node,
     @ProcessDetection (Bench.platform true) 20 Bench.cloud_4x4
       (Bench.boxes [Bench.box "Backpack" 1 1 2 2; Bench.box "Drill" 2 2 3 3]) 1
       (Bench.node false Bench.no_artifact)
     = TransformException w'
     /\ have_an_artifact_to_report w' = false
     /\ rosout w' = [])
  /\ (exists w' : Node,
        @process_box (Bench.platform true) 20 Bench.cloud_4x4 1
          (Bench.box "Drill" 2 2 3 3) (clock_tick (Bench.node false Bench.no_artifact))
        = Completed w'
        /\ have_an_artifact_to_report w' = true
        /\ type (artifact_to_report w') = subt.TYPE_DRILL).
Proof.
  split; eexists; (split; [vm_compute; reflexivity|]); split; reflexivity.
Qed.

(** C9. A box whose label is not in the vocabulary leaves the saved
    artifact, the flag, the log and the messages sent as they were, however
    the processing of the box ends: nothing is stored and no detection is
    logged.  The label itself raises nothing: once the crop has returned,
    the box ends exactly as its transform does, normally with only the clock
    read when the transform succeeds. *)
Theorem process_box_unrecognized {P : Platform} (n : nat) (cloud_msg : PointCloud2)
  (tf_buffer : tf2_Buffer) (box : BoundingBox) (w : Node) :
  ~ In (Class_ box) vocabulary ->
  (forall w' : Node,
     process_box n cloud_msg tf_buffer box w = Completed w'
     \/ process_box n cloud_msg tf_buffer box w = TransformException w' ->
     same_report w w')
  /\ (forall (cropped_pc : PointCloud2),
        CropPointCloud n cloud_msg box = Returns cropped_pc ->
        match tf2_transform tf_buffer (fst (GetCentroid cropped_pc w))
                            (artifact_origin_frame w) Duration_1_0 with
        | Some _ => process_box n cloud_msg tf_buffer box w = Completed (clock_tick w)
        | None => process_box n cloud_msg tf_buffer box w
                  = TransformException (clock_tick w)
        end).
Proof.
  intros Hlabel.
  assert (Hrun : forall cropped_pc : PointCloud2,
             CropPointCloud n cloud_msg box = Returns cropped_pc ->
             match tf2_transform tf_buffer (fst (GetCentroid cropped_pc w))
                                 (artifact_origin_frame w) Duration_1_0 with
             | Some _ => process_box n cloud_msg tf_buffer box w = Completed (clock_tick w)
             | None => process_box n cloud_msg tf_buffer box w
                       = TransformException (clock_tick w)
             end).
  { intros cropped_pc Hcrop. unfold process_box. rewrite Hcrop.
    destruct (GetCentroid cropped_pc w) as [centroid w1] eqn:Hc.
    assert (Hw1 : w1 = clock_tick w) by (unfold GetCentroid in Hc; congruence).
    subst w1. cbn [fst artifact_origin_frame clock_tick].
    destruct (tf2_transform tf_buffer centroid (artifact_origin_frame w) Duration_1_0);
      [|reflexivity].
    now rewrite classify_unrecognized. }
  split; [|exact Hrun].
  intros w' Hend.
  destruct (CropPointCloud n cloud_msg box) as [cropped_pc| |] eqn:Hcrop.
  - specialize (Hrun cropped_pc eq_refl).
    destruct (tf2_transform tf_buffer (fst (GetCentroid cropped_pc w))
                            (artifact_origin_frame w) Duration_1_0);
      rewrite Hrun in Hend; destruct Hend as [Hend|Hend];
      inversion Hend; subst; now repeat split.
  - unfold process_box in Hend. rewrite Hcrop in Hend.
    destruct Hend; discriminate.
  - unfold process_box in Hend. rewrite Hcrop in Hend.
    destruct Hend; discriminate.
Qed.

(** C9, witness: a box labelled Helmet on the bench cloud with the
    transform available. *)
Lemma process_box_unrecognized_witness :
  ~ In (Class_ (Bench.box "Helmet" 1 1 2 2)) vocabulary
  /\ same_report (Bench.node true Bench.a_phone)
                 (clock_tick (Bench.node true Bench.a_phone)).
Proof.
  assert (Hlabel : ~ In (Class_ (Bench.box "Helmet" 1 1 2 2)) vocabulary)
    by (cbn; intros [H|[H|[H|[H|[H|[]]]]]]; discriminate).
  split; [exact Hlabel|].
  refine (proj1 (@process_box_unrecognized (Bench.platform true) 20 Bench.cloud_4x4 0
                   (Bench.box "Helmet" 1 1 2 2) (Bench.node true Bench.a_phone) Hlabel)
                (clock_tick (Bench.node true Bench.a_phone)) (or_introl _)).
  vm_compute. reflexivity.
Defined.

(** What ends a box with an exception is its transform, whatever its
    label: with the transform unavailable a helmet and a drill end alike. *)
Example transform_failure_whatever_the_label :
  @ProcessDetection (Bench.platform true) 20 Bench.cloud_4x4
    (Bench.boxes [Bench.box "Helmet" 1 1 2 2]) 1 (Bench.node true Bench.a_phone)
  = TransformException (clock_tick (Bench.node true Bench.a_phone))
  /\ @ProcessDetection (Bench.platform true) 20 Bench.cloud_4x4
       (Bench.boxes [Bench.box "Drill" 1 1 2 2]) 1 (Bench.node true Bench.a_phone)
     = TransformException (clock_tick (Bench.node true Bench.a_phone)).
Proof.
  split; vm_compute; reflexivity.
Qed.

(** * The unused transform *)

Lemma classify_set_object_frame (frame : string) (box : BoundingBox)
  (scoring_pose : geometry_msgs.PoseStamped) (w : Node) :
  classify box scoring_pose (set_object_frame frame w)
  = set_object_frame frame (classify box scoring_pose w).
Proof.
  unfold classify.
  repeat match goal with
         | |- context [String.eqb (Class_ box) ?s] =>
             destruct (String.eqb (Class_ box) s)
         end; reflexivity.
Qed.

Lemma GetCentroid_set_object_frame {P : Platform} (T : Type)
  (helper : geometry_msgs.PoseStamped -> string -> string -> T) (frame : string)
  (pc : PointCloud2) (w : Node) :
  @GetCentroid (with_ToTransformStamped P T helper) pc (set_object_frame frame w)
  = (fst (@GetCentroid P pc w), set_object_frame frame (snd (@GetCentroid P pc w))).
Proof. reflexivity. Qed.

(** C10. ProcessDetection run with another value of [object_frame] and
    another helper behind ToTransformStamped ends the same way, with the
    same node but for [object_frame] itself: the saved artifact, the flag,
    the log and the messages sent do not depend on either. *)
Theorem ProcessDetection_ignores_object_frame {P : Platform} (T : Type)
  (helper : geometry_msgs.PoseStamped -> string -> string -> T) (frame : string)
  (n : nat) (cloud_msg : PointCloud2) (bb_msg : BoundingBoxes)
  (tf_buffer : @tf2_Buffer P) (w : Node) :
  @ProcessDetection (with_ToTransformStamped P T helper) n cloud_msg bb_msg tf_buffer
    (set_object_frame frame w)
  = completion_map (set_object_frame frame)
      (@ProcessDetection P n cloud_msg bb_msg tf_buffer w).
Proof.
  unfold ProcessDetection.
  generalize (bounding_boxes bb_msg) as boxes. intros boxes. revert w.
  induction boxes as [|box boxes IH]; intros w; [reflexivity|].
  cbn [process_boxes].
  assert (Hbox : @process_box (with_ToTransformStamped P T helper) n cloud_msg tf_buffer
                   box (set_object_frame frame w)
                 = completion_map (set_object_frame frame)
                     (@process_box P n cloud_msg tf_buffer box w)).
  { unfold process_box.
    destruct (CropPointCloud n cloud_msg box) as [cropped_pc| |];
      [|reflexivity|reflexivity].
    rewrite (GetCentroid_set_object_frame T helper frame cropped_pc w).
    destruct (@GetCentroid P cropped_pc w) as [centroid w1].
    cbn [fst snd].
    change (artifact_origin_frame (set_object_frame frame w1))
      with (artifact_origin_frame w1).
    change (@tf2_transform (with_ToTransformStamped P T helper))
      with (@tf2_transform P).
    destruct (@tf2_transform P tf_buffer centroid (artifact_origin_frame w1) Duration_1_0)
      as [scoring_pose|]; [|reflexivity].
    cbn [completion_map]. f_equal.
    apply classify_set_object_frame. }
  rewrite Hbox.
  destruct (@process_box P n cloud_msg tf_buffer box w) as [w'|w'| |];
    [|reflexivity|reflexivity|reflexivity].
  cbn [completion_map]. apply IH.
Qed.

(** * The scenario of the specification, end to end *)

(** A drill is detected in a box of points (1,1,1) and the transform is the
    identity: the next tick sends the drill, the acknowledgment clears the
    flag, and the tick after that sends nothing more. *)
Example detect_report_acknowledge :
  exists w1 : Node,
    @ProcessDetection (Bench.platform true) 20 Bench.cloud_4x4
      (Bench.boxes [Bench.box "Drill" 1 1 2 2]) 0 (Bench.node false Bench.no_artifact)
    = Completed w1
    /\ artifact_to_report w1 = {| type := subt.TYPE_DRILL; location := Bench.ones |}
    /\ sent (@ReportArtifacts (Bench.platform true) w1) = [("2", "base_station")]%string
    /\ have_an_artifact_to_report
         (@BaseStationCallback (Bench.platform true) "base_station" "anymal_b" 4100
            EmptyString (@ReportArtifacts (Bench.platform true) w1)) = false
    /\ sent (@ReportArtifacts (Bench.platform true)
               (@BaseStationCallback (Bench.platform true) "base_station" "anymal_b" 4100
                  EmptyString (@ReportArtifacts (Bench.platform true) w1)))
       = [("2", "base_station")]%string.
Proof.
  eexists. split; [vm_compute; reflexivity|].
  split; [vm_compute; reflexivity|].
  split; [vm_compute; reflexivity|].
  split; vm_compute; reflexivity.
Qed.

(** * CropPointCloud at the edges of its input *)







Lemma size_t_range (x : Z) : 0 <= size_t x < 2 ^ 64.
Proof. unfold size_t. apply Z.mod_pos_bound. lia. Qed.

(** With [xmax = -1] the bound of the column loop is the largest [size_t]:
    the loop condition never fails. *)
Lemma crop_cols_unbounded (n : nat) (pc : PointCloud2) (bb : BoundingBox) (r : Z) :
  size_t (xmax bb) = 2 ^ 64 - 1 ->
  forall (fuel : nat) (c : Z) (dst out : list byte),
    0 <= c < 2 ^ 64 ->
    crop_cols n fuel pc bb r c dst <> Returns out.
Proof.
  intros Hmax fuel. induction fuel as [|fuel IH]; intros c dst out Hc;
    cbn [crop_cols]; [discriminate|].
  rewrite Hmax.
  replace (c <=? 2 ^ 64 - 1) with true by (symmetry; apply Z.leb_le; lia).
  destruct (copy_point _ _ _ _ _) as [dst'| |]; try discriminate.
  apply IH, size_t_range.
Qed.

Lemma crop_rows_unbounded (n : nat) (pc : PointCloud2) (bb : BoundingBox) :
  size_t (ymax bb) = 2 ^ 64 - 1 ->
  forall (fuel : nat) (r : Z) (dst out : list byte),
    0 <= r < 2 ^ 64 ->
    crop_rows n fuel pc bb r dst <> Returns out.
Proof.
  intros Hmax fuel. induction fuel as [|fuel IH]; intros r dst out Hr;
    cbn [crop_rows]; [discriminate|].
  rewrite Hmax.
  replace (r <=? 2 ^ 64 - 1) with true by (symmetry; apply Z.leb_le; lia).
  destruct (crop_cols _ _ _ _ _ _ _) as [dst'| |]; try discriminate.
  apply IH, size_t_range.
Qed.

(** X2. A box whose [ymax] is -1, or whose [xmax] is -1 while its rows are
    in order, never yields a cloud: converted to [size_t] the bound is the
    largest value there is and the loop condition never fails: the run can
    only end by reading past the buffer, and whatever the loop budget it
    does not end with a cloud. *)
Theorem CropPointCloud_never_returns (pc : PointCloud2) (bb : BoundingBox) :
  ymax bb = -1 \/ (xmax bb = -1 /\ 0 <= ymin bb <= ymax bb /\ ymax bb < 2 ^ 63) ->
  forall (n : nat) (out : PointCloud2), CropPointCloud n pc bb <> Returns out.
Proof.
  intros Hcase n out. unfold CropPointCloud.
  assert (Hrows : forall bytes, crop_rows n n pc bb (size_t (ymin bb)) [] <> Returns bytes).
  { intros bytes. destruct Hcase as [Hy|(Hx & Hy & Hy')].
    - apply crop_rows_unbounded; [now rewrite Hy|apply size_t_range].
    - destruct n as [|n]; [discriminate|]. cbn [crop_rows].
      rewrite !(size_t_small (ymin bb)), (size_t_small (ymax bb)) by lia.
      replace (ymin bb <=? ymax bb) with true by (symmetry; apply Z.leb_le; lia).
      pose proof (crop_cols_unbounded (S n) pc bb (ymin bb)) as Hcols.
      destruct (crop_cols _ _ _ _ _ _ _) as [dst'| |] eqn:Hc; try discriminate.
      exfalso. apply (Hcols ltac:(now rewrite Hx) _ _ _ dst' (size_t_range (xmin bb)) Hc). }
  destruct (crop_rows n n pc bb (size_t (ymin bb)) []) as [bytes| |];
    try discriminate.
  exfalso. now apply (Hrows bytes).
Qed.

(** X2, witness: the box (0,0)-(-1,0) on the bench cloud, with some budgets. *)
Lemma CropPointCloud_never_returns_witness :
  CropPointCloud 3 Bench.cloud_4x4 (Bench.box "Drill" 0 0 (-1) 0) = OutOfFuel
  /\ CropPointCloud 40 Bench.cloud_4x4 (Bench.box "Drill" 0 0 (-1) 0) = UndefinedBehaviour
  /\ forall (n : nat) (out : PointCloud2),
       CropPointCloud n Bench.cloud_4x4 (Bench.box "Drill" 0 0 (-1) 0) <> Returns out.
Proof.
  split; [vm_compute; reflexivity|].
  split; [vm_compute; reflexivity|].
  apply CropPointCloud_never_returns.
  right. simpl. lia.
Defined.

(** * A box that reaches past the buffer *)

Lemma copy_point_returns (fuel : nat) (src : list byte) :
  forall (i end_ : Z) (dst out : list byte),
    copy_point fuel src i end_ dst = Returns out ->
    0 <= i < end_ -> end_ < 2 ^ 64 ->
    end_ <= Z.of_nat (List.length src).
Proof.
  induction fuel as [|fuel IH]; intros i end_ dst out Hrun Hi Hend;
    cbn [copy_point] in Hrun; [discriminate|].
  replace (i <? end_) with true in Hrun by (symmetry; apply Z.ltb_lt; lia).
  destruct (nth_error src (Z.to_nat i)) as [b|] eqn:Hb; [|discriminate].
  assert (Hlen : (Z.to_nat i < List.length src)%nat)
    by (apply nth_error_Some; congruence).
  rewrite size_t_small in Hrun by lia.
  destruct (Z.eq_dec (i + 1) end_) as [Hlast|Hmore]; [lia|].
  apply (IH (i + 1) end_ (dst ++ [b]) out Hrun); lia.
Qed.

Section CropReturns.

Variables (pc : PointCloud2) (bb : BoundingBox) (n : nat).

Hypothesis Hps : 0 < point_step pc.
Hypothesis Hrs : 0 <= row_step pc.
Hypothesis Hxmax : 0 <= xmax bb < 2 ^ 63.

Lemma crop_cols_returns (fuel : nat) :
  forall (r c : Z) (dst out : list byte),
    crop_cols n fuel pc bb r c dst = Returns out ->
    0 <= r -> 0 <= c <= xmax bb ->
    r * row_step pc + xmax bb * point_step pc + point_step pc < 2 ^ 64 ->
    r * row_step pc + xmax bb * point_step pc + point_step pc
      <= Z.of_nat (List.length (data pc)).
Proof.
  induction fuel as [|fuel IH]; intros r c dst out Hrun Hr Hc Hfit;
    cbn [crop_cols] in Hrun; [discriminate|].
  rewrite (size_t_small (xmax bb)) in Hrun by lia.
  replace (c <=? xmax bb) with true in Hrun by (symmetry; apply Z.leb_le; lia).
  assert (0 <= r * row_step pc) by nia.
  assert (0 <= c * point_step pc <= xmax bb * point_step pc) by nia.
  rewrite (size_t_small (r * row_step pc)) in Hrun by lia.
  rewrite (size_t_small (c * point_step pc)) in Hrun by lia.
  rewrite (size_t_small (r * row_step pc + c * point_step pc)) in Hrun by lia.
  rewrite (size_t_small (_ + point_step pc)) in Hrun by lia.
  destruct (copy_point _ _ _ _ _) as [dst'| |] eqn:Hcopy; try discriminate.
  apply copy_point_returns in Hcopy; [|lia|lia].
  destruct (Z.eq_dec c (xmax bb)) as [->|Hmore]; [exact Hcopy|].
  rewrite size_t_small in Hrun by lia.
  apply (IH r (c + 1) dst' out Hrun); lia.
Qed.

Hypothesis Hxmin : 0 <= xmin bb <= xmax bb.
Hypothesis Hymax : 0 <= ymax bb < 2 ^ 63.

Lemma crop_rows_returns (fuel : nat) :
  forall (r : Z) (dst out : list byte),
    crop_rows n fuel pc bb r dst = Returns out ->
    0 <= r <= ymax bb ->
    ymax bb * row_step pc + xmax bb * point_step pc + point_step pc < 2 ^ 64 ->
    ymax bb * row_step pc + xmax bb * point_step pc + point_step pc
      <= Z.of_nat (List.length (data pc)).
Proof.
  induction fuel as [|fuel IH]; intros r dst out Hrun Hr Hfit;
    cbn [crop_rows] in Hrun; [discriminate|].
  rewrite (size_t_small (ymax bb)) in Hrun by lia.
  replace (r <=? ymax bb) with true in Hrun by (symmetry; apply Z.leb_le; lia).
  rewrite (size_t_small (xmin bb)) in Hrun by lia.
  destruct (crop_cols _ _ _ _ _ _ _) as [dst'| |] eqn:Hcols; try discriminate.
  destruct (Z.eq_dec r (ymax bb)) as [->|Hmore].
  - apply crop_cols_returns in Hcols; lia.
  - rewrite size_t_small in Hrun by lia.
    apply (IH (r + 1) dst' out Hrun); lia.
Qed.

End CropReturns.

Lemma crop_returns_in_buffer (pc : PointCloud2) (bb : BoundingBox)
  (n : nat) (out : PointCloud2) :
  0 < point_step pc ->
  0 <= row_step pc ->
  int64_box bb ->
  0 <= xmin bb <= xmax bb ->
  0 <= ymin bb <= ymax bb ->
  ymax bb * row_step pc + xmax bb * point_step pc + point_step pc < 2 ^ 64 ->
  CropPointCloud n pc bb = Returns out ->
  reads_in_buffer pc bb.
Proof.
  intros Hps Hrs (Hx0 & Hx1 & Hy0 & Hy1) Hx Hy Hfit Hrun.
  unfold CropPointCloud in Hrun.
  destruct (crop_rows n n pc bb (size_t (ymin bb)) []) as [bytes| |] eqn:Hrows;
    try discriminate.
  rewrite size_t_small in Hrows by lia.
  apply crop_rows_returns in Hrows; try lia.
  unfold reads_in_buffer. repeat split; lia.
Qed.

(** With a budget above the number of iterations no loop stops for want of
    budget. *)
Lemma copy_point_budget (len : nat) :
  forall (fuel : nat) (src : list byte) (i : Z) (dst : list byte),
    (len < fuel)%nat ->
    0 <= i -> i + Z.of_nat len < 2 ^ 64 ->
    copy_point fuel src i (i + Z.of_nat len) dst <> OutOfFuel.
Proof.
  induction len as [|len IH]; intros fuel src i dst Hfuel Hi Hfit;
    (destruct fuel as [|fuel]; [lia|]); cbn [copy_point].
  - replace (i <? i + Z.of_nat 0) with false by (symmetry; apply Z.ltb_ge; lia).
    discriminate.
  - replace (i <? i + Z.of_nat (S len)) with true by (symmetry; apply Z.ltb_lt; lia).
    destruct (nth_error src (Z.to_nat i)) as [b|]; [|discriminate].
    rewrite size_t_small by lia.
    replace (i + Z.of_nat (S len)) with (i + 1 + Z.of_nat len) by lia.
    apply IH; lia.
Qed.

Section CropBudget.

Variables (pc : PointCloud2) (bb : BoundingBox) (n : nat).

Hypothesis Hps : 0 <= point_step pc.
Hypothesis Hrs : 0 <= row_step pc.
Hypothesis Hn : point_step pc < Z.of_nat n.
Hypothesis Hxmax : 0 <= xmax bb < 2 ^ 63.

Lemma crop_cols_budget (k : nat) :
  forall (fuel : nat) (r c : Z) (dst : list byte),
    (k < fuel)%nat ->
    0 <= r -> 0 <= c ->
    c + Z.of_nat k = xmax bb + 1 ->
    r * row_step pc + xmax bb * point_step pc + point_step pc < 2 ^ 64 ->
    crop_cols n fuel pc bb r c dst <> OutOfFuel.
Proof.
  induction k as [|k IH]; intros fuel r c dst Hfuel Hr Hc Hk Hfit;
    (destruct fuel as [|fuel]; [lia|]); cbn [crop_cols];
    rewrite (size_t_small (xmax bb)) by lia.
  - replace (c <=? xmax bb) with false by (symmetry; apply Z.leb_gt; lia).
    discriminate.
  - replace (c <=? xmax bb) with true by (symmetry; apply Z.leb_le; lia).
    assert (0 <= r * row_step pc) by nia.
    assert (0 <= c * point_step pc <= xmax bb * point_step pc) by nia.
    rewrite (size_t_small (r * row_step pc)) by lia.
    rewrite (size_t_small (c * point_step pc)) by lia.
    rewrite (size_t_small (r * row_step pc + c * point_step pc)) by lia.
    rewrite (size_t_small (_ + point_step pc)) by lia.
    pose proof (copy_point_budget (Z.to_nat (point_step pc)) n (data pc)
                  (r * row_step pc + c * point_step pc) dst) as Hcopy.
    rewrite Z2Nat.id in Hcopy by lia.
    destruct (copy_point _ _ _ _ _) as [dst'| |]; try discriminate.
    + rewrite size_t_small by lia. apply IH; lia.
    + exfalso. apply Hcopy; [lia|lia|lia|reflexivity].
Qed.

Hypothesis Hcols : xmax bb - xmin bb + 1 < Z.of_nat n.
Hypothesis Hxmin : 0 <= xmin bb <= xmax bb.
Hypothesis Hymax : 0 <= ymax bb < 2 ^ 63.

Lemma crop_rows_budget (k : nat) :
  forall (fuel : nat) (r : Z) (dst : list byte),
    (k < fuel)%nat ->
    0 <= r ->
    r + Z.of_nat k = ymax bb + 1 ->
    ymax bb * row_step pc + xmax bb * point_step pc + point_step pc < 2 ^ 64 ->
    crop_rows n fuel pc bb r dst <> OutOfFuel.
Proof.
  induction k as [|k IH]; intros fuel r dst Hfuel Hr Hk Hfit;
    (destruct fuel as [|fuel]; [lia|]); cbn [crop_rows];
    rewrite (size_t_small (ymax bb)) by lia.
  - replace (r <=? ymax bb) with false by (symmetry; apply Z.leb_gt; lia).
    discriminate.
  - replace (r <=? ymax bb) with true by (symmetry; apply Z.leb_le; lia).
    rewrite (size_t_small (xmin bb)) by lia.
    pose proof (crop_cols_budget (Z.to_nat (xmax bb - xmin bb + 1)) n r (xmin bb) dst)
      as Hcols'.
    destruct (crop_cols _ _ _ _ _ _ _) as [dst'| |]; try discriminate.
    + rewrite size_t_small by lia. apply IH; lia.
    + exfalso. apply Hcols'; try lia; try reflexivity; nia.
Qed.

End CropBudget.

(** X3. CropPointCloud has no check to stop it at the end of the buffer:
    for a box with [0 <= xmin <= xmax] and [0 <= ymin <= ymax] and a positive
    point step (and offsets that fit [size_t]) whose last point ends past the
    buffer, the loops reach the unchecked [data[i]] with [i] at or beyond
    the size of the buffer.  What the program does from there on is not
    defined by the language and is not described here. *)
Theorem CropPointCloud_reads_past_the_buffer (pc : PointCloud2) (bb : BoundingBox)
  (n : nat) :
  0 < point_step pc ->
  0 <= row_step pc ->
  int64_box bb ->
  0 <= xmin bb <= xmax bb ->
  0 <= ymin bb <= ymax bb ->
  ymax bb * row_step pc + xmax bb * point_step pc + point_step pc < 2 ^ 64 ->
  Z.of_nat (List.length (data pc))
  < ymax bb * row_step pc + xmax bb * point_step pc + point_step pc ->
  Z.max (Z.max (xmax bb - xmin bb + 1) (ymax bb - ymin bb + 1)) (point_step pc)
    < Z.of_nat n ->
  CropPointCloud n pc bb = UndefinedBehaviour.
Proof.
  intros Hps Hrs Hbox Hx Hy Hfit Hpast Hn.
  pose proof Hbox as (Hx0 & Hx1 & Hy0 & Hy1).
  destruct (CropPointCloud n pc bb) as [out| |] eqn:Hrun; [|reflexivity|].
  - apply crop_returns_in_buffer in Hrun; try assumption.
    destruct Hrun as (_ & _ & _ & _ & Hlast). lia.
  - exfalso. unfold CropPointCloud in Hrun.
    destruct (crop_rows n n pc bb (size_t (ymin bb)) []) as [bytes| |] eqn:Hrows;
      try discriminate.
    rewrite size_t_small in Hrows by lia.
    revert Hrows.
    apply (crop_rows_budget pc bb n) with (k := Z.to_nat (ymax bb - ymin bb + 1));
      lia.
Qed.

(** X3, witness: the box (0,0)-(1,4) ends one row below the bench cloud. *)
Lemma CropPointCloud_reads_past_the_buffer_witness :
  CropPointCloud 20 Bench.cloud_4x4 (Bench.box "Drill" 0 0 1 4) = UndefinedBehaviour.
Proof.
  apply CropPointCloud_reads_past_the_buffer; try (simpl; lia).
  unfold int64_box. simpl. lia.
Defined.

(** * Crops of crops, and the crop of the whole frame *)

Lemma firstn_plus {A : Type} (n m : nat) :
  forall l : list A, firstn (n + m) l = firstn n l ++ firstn m (skipn n l).
Proof.
  induction n as [|n IH]; intros l; [reflexivity|].
  destruct l as [|a l]; [cbn; now rewrite firstn_nil|].
  cbn [Nat.add firstn skipn app]. now rewrite IH.
Qed.

Lemma slice_app (l : list byte) (a len1 len2 : Z) :
  0 <= a -> 0 <= len1 -> 0 <= len2 ->
  slice l a len1 ++ slice l (a + len1) len2 = slice l a (len1 + len2).
Proof.
  intros Ha H1 H2. unfold slice.
  rewrite (Z2Nat.inj_add len1 len2), (Z2Nat.inj_add a len1) by lia.
  rewrite firstn_plus, skipn_skipn. now rewrite (Nat.add_comm (Z.to_nat len1)).
Qed.

Lemma slice_all (l : list byte) : slice l 0 (Z.of_nat (List.length l)) = l.
Proof.
  unfold slice. rewrite Nat2Z.id. cbn [Z.to_nat skipn]. apply firstn_all.
Qed.

(** Consecutive chunks of a buffer, put end to end, are one slice of it. *)
Lemma flat_map_slices (l : list byte) (base len : Z) (k : nat) :
  forall lo : Z,
    0 <= base -> 0 <= len -> 0 <= lo ->
    flat_map (fun i => slice l (base + i * len) len) (zrange lo k)
    = slice l (base + lo * len) (Z.of_nat k * len).
Proof.
  induction k as [|k IH]; intros lo Hbase Hlen Hlo; [reflexivity|].
  rewrite zrange_S. cbn [flat_map]. rewrite IH by lia.
  replace (base + (lo + 1) * len) with (base + lo * len + len) by lia.
  rewrite slice_app by nia. f_equal. lia.
Qed.

Lemma flat_map_zrange_shift {A : Type} (f g : Z -> list A) (a : Z) (k : nat) :
  forall lo : Z,
    (forall c, lo <= c < lo + Z.of_nat k -> f c = g (a + c)) ->
    flat_map f (zrange lo k) = flat_map g (zrange (a + lo) k).
Proof.
  induction k as [|k IH]; intros lo Hfg; [reflexivity|].
  rewrite !zrange_S. cbn [flat_map]. rewrite Hfg by lia.
  replace (a + lo + 1) with (a + (lo + 1)) by lia.
  rewrite IH; [reflexivity|]. intros c Hc. apply Hfg. lia.
Qed.

(** The cloud CropPointCloud returns for a box in range, field by field. *)
Lemma CropPointCloud_in_range_value (pc : PointCloud2) (bb : BoundingBox) (n : nat) :
  structured pc ->
  in_range pc bb ->
  Z.max (Z.max (width pc) (height pc)) (point_step pc) < Z.of_nat n ->
  CropPointCloud n pc bb
  = Returns {| header := header pc;
               height := ymax bb - ymin bb + 1;
               width := xmax bb - xmin bb + 1;
               fields := fields pc;
               is_bigendian := is_bigendian pc;
               point_step := point_step pc;
               row_step := (xmax bb - xmin bb + 1) * point_step pc;
               data := box_bytes pc bb;
               is_dense := is_dense pc |}.
Proof.
  intros Hstr Hin Hn.
  destruct (in_range_reads_in_buffer pc bb Hstr Hin) as [Hbuf Hbox].
  destruct Hstr as [Hrep Hrow Hdata].
  pose proof Hrep as [Hh Hw Hps Hrs Hsize].
  pose proof Hin as (Hx0 & Hx1 & Hx2 & Hy0 & Hy1 & Hy2).
  assert (HW : (xmax bb - xmin bb + 1) * point_step pc <= width pc * point_step pc)
    by nia.
  assert (HW0 : 0 <= (xmax bb - xmin bb + 1) * point_step pc) by nia.
  unfold CropPointCloud.
  rewrite (crop_rows_box_bytes pc bb Hrep Hbox Hbuf) by lia.
  rewrite (int64_small (ymax bb - ymin bb)), (int64_small (xmax bb - xmin bb)) by lia.
  rewrite !int64_small by lia.
  rewrite !(uint32_small (_ + 1)) by lia.
  rewrite uint32_small by lia.
  reflexivity.
Qed.

(** X4. The crop of a box in range is again a structured cloud, and one
    without padding: its rows are exactly [width] points long and its
    buffer is exactly [height] rows long, whatever padding the original
    had. *)
Theorem CropPointCloud_result_structured (pc : PointCloud2) (bb : BoundingBox) (n : nat) :
  structured pc ->
  in_range pc bb ->
  Z.max (Z.max (width pc) (height pc)) (point_step pc) < Z.of_nat n ->
  exists out : PointCloud2,
    CropPointCloud n pc bb = Returns out
    /\ structured out
    /\ row_step out = width out * point_step out
    /\ Z.of_nat (List.length (data out)) = height out * row_step out
    /\ 0 < width out <= width pc
    /\ 0 < height out <= height pc.
Proof.
  intros Hstr Hin Hn.
  rewrite (CropPointCloud_in_range_value pc bb n Hstr Hin Hn).
  destruct (in_range_reads_in_buffer pc bb Hstr Hin) as [Hbuf Hbox].
  destruct Hstr as [Hrep Hrow Hdata].
  pose proof Hrep as [Hh Hw Hps Hrs Hsize].
  pose proof Hin as (Hx0 & Hx1 & Hx2 & Hy0 & Hy1 & Hy2).
  pose proof (box_bytes_length pc bb Hrep Hbuf) as Hlen.
  assert (HW : 0 <= (xmax bb - xmin bb + 1) * point_step pc <= width pc * point_step pc)
    by nia.
  eexists. split; [reflexivity|].
  cbn [width height point_step row_step data].
  split; [|split; [reflexivity|split; [rewrite Hlen; ring|lia]]].
  constructor; [constructor|..]; cbn [width height point_step row_step data];
    try lia.
  rewrite Hlen.
  assert ((ymax bb - ymin bb + 1) * ((xmax bb - xmin bb + 1) * point_step pc)
            <= height pc * row_step pc)
    by (apply Z.mul_le_mono_nonneg; lia).
  lia.
Qed.

(** X4, witness: a box inside the padded bench cloud. *)
Lemma CropPointCloud_result_structured_witness :
  row_step Bench.cloud_padded > width Bench.cloud_padded * point_step Bench.cloud_padded
  /\ exists out : PointCloud2,
       CropPointCloud 20 Bench.cloud_padded (Bench.box "Drill" 1 1 3 2) = Returns out
       /\ structured out
       /\ row_step out = width out * point_step out.
Proof.
  split; [simpl; lia|].
  destruct (CropPointCloud_result_structured Bench.cloud_padded
              (Bench.box "Drill" 1 1 3 2) 20)
    as (out & Hout & Hstr & Hrow & _).
  - repeat constructor; simpl; lia.
  - unfold in_range. simpl. lia.
  - simpl. lia.
  - exists out. exact (conj Hout (conj Hstr Hrow)).
Defined.

(** X5. Cropping a cloud without padding to its whole frame, columns 0 to
    [width-1] and rows 0 to [height-1], returns the cloud itself. *)
Theorem CropPointCloud_whole_frame (pc : PointCloud2) (bb : BoundingBox) (n : nat) :
  structured pc ->
  row_step pc = width pc * point_step pc ->
  Z.of_nat (List.length (data pc)) = height pc * row_step pc ->
  0 < width pc -> 0 < height pc ->
  xmin bb = 0 -> ymin bb = 0 ->
  xmax bb = width pc - 1 -> ymax bb = height pc - 1 ->
  Z.max (Z.max (width pc) (height pc)) (point_step pc) < Z.of_nat n ->
  CropPointCloud n pc bb = Returns pc.
Proof.
  intros Hstr Hrow Hdata Hw Hh Hx0 Hy0 Hx1 Hy1 Hn.
  rewrite (CropPointCloud_in_range_value pc bb n Hstr) by (unfold in_range; lia || exact Hn).
  destruct Hstr as [[_ _ Hps Hrs _] _ _].
  assert (Hbytes : box_bytes pc bb = data pc).
  { unfold box_bytes, row_bytes, point_bytes. rewrite Hx0, Hy0, Hx1, Hy1.
    replace (width pc - 1 - 0 + 1) with (width pc) by lia.
    replace (height pc - 1 - 0 + 1) with (height pc) by lia.
    rewrite (flat_map_zrange_shift _
               (fun r => slice (data pc) (0 + r * row_step pc) (row_step pc)) 0).
    - change (0 + 0) with 0. rewrite flat_map_slices by lia.
      rewrite Z2Nat.id by lia. cbn [Z.add Z.mul]. rewrite <- Hdata. apply slice_all.
    - intros r Hr. cbn [Z.add].
      rewrite (flat_map_slices (data pc) (r * row_step pc) (point_step pc)) by nia.
      rewrite Z2Nat.id, <- Hrow by lia. f_equal. lia. }
  rewrite Hbytes, Hx0, Hy0, Hx1, Hy1.
  replace (width pc - 1 - 0 + 1) with (width pc) by lia.
  replace (height pc - 1 - 0 + 1) with (height pc) by lia.
  rewrite <- Hrow.
  now destruct pc.
Qed.

(** X5, witness: the whole frame of the bench cloud. *)
Lemma CropPointCloud_whole_frame_witness :
  CropPointCloud 20 Bench.cloud_4x4 (Bench.box "Drill" 0 0 3 3) = Returns Bench.cloud_4x4.
Proof.
  apply CropPointCloud_whole_frame; try reflexivity; try (simpl; lia).
  repeat constructor; simpl; lia.
Defined.

(** With padding the whole frame is not the whole buffer: the crop drops the
    padding. *)
Example CropPointCloud_whole_frame_padded :
  exists out : PointCloud2,
    CropPointCloud 20 Bench.cloud_padded (Bench.box "Drill" 0 0 3 3) = Returns out
    /\ List.length (data out) = 192%nat
    /\ List.length (data Bench.cloud_padded) = 224%nat.
Proof.
  eexists. split; [vm_compute; reflexivity|].
  split; reflexivity.
Qed.

Lemma crop_value_structured (pc : PointCloud2) (bb : BoundingBox) :
  structured pc ->
  in_range pc bb ->
  structured {| header := header pc;
                height := ymax bb - ymin bb + 1;
                width := xmax bb - xmin bb + 1;
                fields := fields pc;
                is_bigendian := is_bigendian pc;
                point_step := point_step pc;
                row_step := (xmax bb - xmin bb + 1) * point_step pc;
                data := box_bytes pc bb;
                is_dense := is_dense pc |}.
Proof.
  intros Hstr Hin.
  destruct (in_range_reads_in_buffer pc bb Hstr Hin) as [Hbuf Hbox].
  destruct Hstr as [Hrep Hrow Hdata].
  pose proof Hrep as [Hh Hw Hps Hrs Hsize].
  pose proof Hin as (Hx0 & Hx1 & Hx2 & Hy0 & Hy1 & Hy2).
  pose proof (box_bytes_length pc bb Hrep Hbuf) as Hlen.
  assert (HW : 0 <= (xmax bb - xmin bb + 1) * point_step pc <= width pc * point_step pc)
    by nia.
  assert ((ymax bb - ymin bb + 1) * ((xmax bb - xmin bb + 1) * point_step pc)
          <= height pc * row_step pc)
    by (apply Z.mul_le_mono_nonneg; lia).
  constructor; [constructor|..]; cbn [width height point_step row_step data];
    lia.
Qed.

Lemma box_bytes_shift (pc : PointCloud2) (outer inner : BoundingBox) :
  structured pc ->
  in_range pc outer ->
  0 <= xmin inner <= xmax inner ->
  xmax inner <= xmax outer - xmin outer ->
  0 <= ymin inner <= ymax inner ->
  ymax inner <= ymax outer - ymin outer ->
  box_bytes {| header := header pc;
               height := ymax outer - ymin outer + 1;
               width := xmax outer - xmin outer + 1;
               fields := fields pc;
               is_bigendian := is_bigendian pc;
               point_step := point_step pc;
               row_step := (xmax outer - xmin outer + 1) * point_step pc;
               data := box_bytes pc outer;
               is_dense := is_dense pc |} inner
  = box_bytes pc (shift_box outer inner).
Proof.
  intros Hstr Hin Hx Hx' Hy Hy'.
  pose proof Hin as (Hx0 & Hx1 & Hx2 & Hy0 & Hy1 & Hy2).
  destruct (in_range_reads_in_buffer pc outer Hstr Hin) as [Hbuf _].
  pose proof Hstr as [Hrep _ _].
  unfold box_bytes at 1. unfold box_bytes at 2.
  cbn [xmin xmax ymin ymax shift_box].
  replace (ymin outer + ymax inner - (ymin outer + ymin inner) + 1)
    with (ymax inner - ymin inner + 1) by lia.
  apply flat_map_zrange_shift. intros r Hr.
  unfold row_bytes. cbn [xmin xmax ymin ymax shift_box].
  replace (xmin outer + xmax inner - (xmin outer + xmin inner) + 1)
    with (xmax inner - xmin inner + 1) by lia.
  apply flat_map_zrange_shift. intros c Hc.
  unfold point_bytes at 1. cbn [data row_step point_step].
  apply (box_bytes_point pc outer Hrep Hbuf); lia.
Qed.

(** X6. Cropping twice is cropping once with the boxes composed: the crop
    by [inner] of the crop by [outer] is the crop of the original by
    [inner] moved to the corner of [outer], the same cloud field for field
    and byte for byte. *)
Theorem CropPointCloud_twice (pc : PointCloud2) (outer inner : BoundingBox) (n : nat) :
  structured pc ->
  in_range pc outer ->
  0 <= xmin inner <= xmax inner ->
  xmax inner <= xmax outer - xmin outer ->
  0 <= ymin inner <= ymax inner ->
  ymax inner <= ymax outer - ymin outer ->
  Z.max (Z.max (width pc) (height pc)) (point_step pc) < Z.of_nat n ->
  exists out1 out2 : PointCloud2,
    CropPointCloud n pc outer = Returns out1
    /\ CropPointCloud n out1 inner = Returns out2
    /\ CropPointCloud n pc (shift_box outer inner) = Returns out2.
Proof.
  intros Hstr Hin Hx Hx' Hy Hy' Hn.
  pose proof (crop_value_structured pc outer Hstr Hin) as Hstr1.
  pose proof Hin as (Hx0 & Hx1 & Hx2 & Hy0 & Hy1 & Hy2).
  destruct (in_range_reads_in_buffer pc outer Hstr Hin) as [Hbuf _].
  pose proof Hstr as [Hrep _ _].
  rewrite (CropPointCloud_in_range_value pc outer n Hstr Hin Hn).
  rewrite (CropPointCloud_in_range_value pc (shift_box outer inner) n Hstr)
    by (unfold in_range, shift_box; cbn [xmin xmax ymin ymax]; lia || exact Hn).
  eexists. eexists. split; [reflexivity|].
  rewrite (CropPointCloud_in_range_value _ inner n Hstr1)
    by (unfold in_range; cbn [width height point_step]; lia).
  split; [reflexivity|].
  cbn [header fields is_bigendian is_dense point_step width height shift_box
       xmin xmax ymin ymax].
  replace (xmin outer + xmax inner - (xmin outer + xmin inner) + 1)
    with (xmax inner - xmin inner + 1) by lia.
  replace (ymin outer + ymax inner - (ymin outer + ymin inner) + 1)
    with (ymax inner - ymin inner + 1) by lia.
  now rewrite (box_bytes_shift pc outer inner Hstr Hin) by lia.
Qed.

(** X6, witness: the box (1,0)-(1,1) of the crop (1,1)-(3,2) of the padded
    bench cloud. *)
Lemma CropPointCloud_twice_witness :
  exists out1 out2 : PointCloud2,
    CropPointCloud 20 Bench.cloud_padded (Bench.box "Drill" 1 1 3 2) = Returns out1
    /\ CropPointCloud 20 out1 (Bench.box "Drill" 1 0 1 1) = Returns out2
    /\ CropPointCloud 20 Bench.cloud_padded (Bench.box "Drill" 2 1 2 2) = Returns out2.
Proof.
  apply (CropPointCloud_twice Bench.cloud_padded (Bench.box "Drill" 1 1 3 2)
           (Bench.box "Drill" 1 0 1 1) 20); try (simpl; lia).
  - repeat constructor; simpl; lia.
  - unfold in_range. simpl. lia.
Defined.

(** * NaN in the centroid *)

Lemma float_add_nan_r (a : float) : float_add a S754_nan = S754_nan.
Proof. now destruct a. Qed.

Lemma float_sum_from_nan (l : list float) : fold_left float_add l S754_nan = S754_nan.
Proof. induction l as [|a l IH]; [reflexivity|exact IH]. Qed.

Lemma float_sum_nan (l : list float) :
  forall a : float, In S754_nan l -> fold_left float_add l a = S754_nan.
Proof.
  induction l as [|b l IH]; intros a Hin; [contradiction|].
  cbn [fold_left]. destruct Hin as [->|Hin].
  - rewrite float_add_nan_r. apply float_sum_from_nan.
  - now apply IH.
Qed.

Lemma float_mean_nan (l : list pcl.PointXYZ) (p : pcl.PointXYZ) :
  In p l ->
  (pcl.x p = S754_nan -> pcl.x (float_mean l) = S754_nan)
  /\ (pcl.y p = S754_nan -> pcl.y (float_mean l) = S754_nan)
  /\ (pcl.z p = S754_nan -> pcl.z (float_mean l) = S754_nan).
Proof.
  intros Hin. unfold float_mean, float_sum. cbn [pcl.x pcl.y pcl.z].
  repeat split; intros Hnan;
    (rewrite float_sum_nan; [reflexivity|]); rewrite <- Hnan; now apply in_map.
Qed.

(** X7. One NaN is enough: if a point that GetCentroid keeps (none of its
    coordinates infinite) has a NaN coordinate, that coordinate of the
    returned position is NaN, whatever the other points are. *)
Theorem GetCentroid_nan_poisons {P : Platform} (original_pc : PointCloud2) (w : Node)
  (p : pcl.PointXYZ) :
  In p (fromPCLPointCloud2 original_pc) ->
  pcl.has_inf p = false ->
  Z.of_nat (List.length (filter no_inf (fromPCLPointCloud2 original_pc))) < 2 ^ 64 ->
  (pcl.x p = S754_nan ->
   geometry_msgs.x (geometry_msgs.position
                      (geometry_msgs.pose (fst (GetCentroid original_pc w)))) = S754_nan)
  /\ (pcl.y p = S754_nan ->
      geometry_msgs.y (geometry_msgs.position
                         (geometry_msgs.pose (fst (GetCentroid original_pc w)))) = S754_nan)
  /\ (pcl.z p = S754_nan ->
      geometry_msgs.z (geometry_msgs.position
                         (geometry_msgs.pose (fst (GetCentroid original_pc w)))) = S754_nan).
Proof.
  intros Hin Hkeep Hlen.
  assert (Hkept : In p (filter no_inf (fromPCLPointCloud2 original_pc))).
  { apply filter_In. split; [exact Hin|]. unfold no_inf. now rewrite Hkeep. }
  cbn [GetCentroid fst geometry_msgs.pose geometry_msgs.position
       geometry_msgs.x geometry_msgs.y geometry_msgs.z].
  rewrite centroid_location_mean.
  - unfold double_of_float. now apply float_mean_nan.
  - split; [|exact Hlen].
    destruct (filter no_inf (fromPCLPointCloud2 original_pc)); [contradiction|].
    cbn [List.length]. lia.
Qed.

(** X7, witness: the second point of this bench cloud is (nan,0,0). *)
Lemma GetCentroid_nan_poisons_witness :
  geometry_msgs.x
    (geometry_msgs.position
       (geometry_msgs.pose
          (fst (@GetCentroid (Bench.platform true) Bench.cloud_nan
                  (Bench.node false Bench.no_artifact))))) = S754_nan.
Proof.
  refine (proj1 (@GetCentroid_nan_poisons (Bench.platform true) Bench.cloud_nan
                   (Bench.node false Bench.no_artifact) Bench.pt_nan _ _ _) _).
  - vm_compute. right. left. reflexivity.
  - reflexivity.
  - vm_compute. reflexivity.
  - reflexivity.
Defined.

(** * The five comparisons as one lookup *)

(** X8. The five independent [if]s of ProcessDetection act as one lookup
    in a table: at most one of them fires for a box, so a box writes the
    artifact and logs at most once, with the type the table gives for its
    label. *)
Theorem classify_lookup (box : BoundingBox) (scoring_pose : geometry_msgs.PoseStamped)
  (w : Node) :
  classify box scoring_pose w
  = match lookup_label (Class_ box) label_table with
    | Some (t, what) => detected t what scoring_pose w
    | None => w
    end.
Proof.
  unfold classify, label_table. cbn [lookup_label].
  destruct (String.eqb (Class_ box) "Backpack") eqn:E1;
    [apply String.eqb_eq in E1; rewrite E1; reflexivity|].
  destruct (String.eqb (Class_ box) "Survivor") eqn:E2;
    [apply String.eqb_eq in E2; rewrite E2; reflexivity|].
  destruct (String.eqb (Class_ box) "Cell Phone") eqn:E3;
    [apply String.eqb_eq in E3; rewrite E3; reflexivity|].
  destruct (String.eqb (Class_ box) "Fire Extinguisher") eqn:E4;
    [apply String.eqb_eq in E4; rewrite E4; reflexivity|].
  destruct (String.eqb (Class_ box) "Drill"); reflexivity.
Qed.

Lemma lookup_label_recognized (box : BoundingBox) :
  recognized box
  = match lookup_label (Class_ box) label_table with
    | Some _ => true
    | None => false
    end.
Proof.
  unfold recognized, vocabulary, label_table. cbn [existsb lookup_label].
  repeat match goal with
         | |- context [String.eqb (Class_ box) ?s] =>
             destruct (String.eqb (Class_ box) s); [reflexivity|]
         end.
  reflexivity.
Qed.

(** What a box does to the node once its transform is known. *)
Lemma classify_effect (box : BoundingBox) (scoring_pose : geometry_msgs.PoseStamped)
  (w : Node) :
  sent (classify box scoring_pose w) = sent w
  /\ same_config w (classify box scoring_pose w)
  /\ clock_reads (classify box scoring_pose w) = clock_reads w
  /\ have_an_artifact_to_report (classify box scoring_pose w)
     = have_an_artifact_to_report w || recognized box
  /\ (exists new : list LogRecord,
        rosout (classify box scoring_pose w) = rosout w ++ new
        /\ List.length new = if recognized box then 1%nat else 0%nat)
  /\ (recognized box = false ->
      artifact_to_report (classify box scoring_pose w) = artifact_to_report w).
Proof.
  rewrite classify_lookup, lookup_label_recognized.
  destruct (lookup_label (Class_ box) label_table) as [[t what]|].
  - cbn. rewrite orb_true_r. repeat split; try discriminate.
    eexists. split; reflexivity.
  - rewrite orb_false_r. repeat split.
    exists []. now rewrite app_nil_r.
Qed.

(** The body of the loop, case by case. *)
Lemma process_box_cases {P : Platform} (n : nat) (cloud_msg : PointCloud2)
  (tf_buffer : tf2_Buffer) (box : BoundingBox) (w : Node) :
  process_box n cloud_msg tf_buffer box w
  = match CropPointCloud n cloud_msg box with
    | Returns cropped_pc =>
        match tf2_transform tf_buffer (fst (GetCentroid cropped_pc w))
                            (artifact_origin_frame w) Duration_1_0 with
        | Some scoring_pose => Completed (classify box scoring_pose (clock_tick w))
        | None => TransformException (clock_tick w)
        end
    | UndefinedBehaviour => Undefined
    | OutOfFuel => Unfinished
    end.
Proof. reflexivity. Qed.

(** * What ProcessDetection leaves alone *)

Lemma same_config_refl (w : Node) : same_config w w.
Proof. now repeat split. Qed.

Lemma same_config_trans (w1 w2 w3 : Node) :
  same_config w1 w2 -> same_config w2 w3 -> same_config w1 w3.
Proof.
  unfold same_config. intros (A1 & A2 & A3 & A4 & A5 & A6) (B1 & B2 & B3 & B4 & B5 & B6).
  repeat split; congruence.
Qed.

Lemma process_box_frame {P : Platform} (n : nat) (cloud_msg : PointCloud2)
  (tf_buffer : tf2_Buffer) (box : BoundingBox) (w w' : Node) :
  node_of (process_box n cloud_msg tf_buffer box w) = Some w' ->
  sent w' = sent w
  /\ same_config w w'
  /\ clock_reads w' = S (clock_reads w)
  /\ (have_an_artifact_to_report w = true -> have_an_artifact_to_report w' = true)
  /\ exists new : list LogRecord, rosout w' = rosout w ++ new.
Proof.
  rewrite process_box_cases.
  destruct (CropPointCloud n cloud_msg box) as [cropped_pc| |]; try discriminate.
  destruct (tf2_transform _ _ _ _) as [scoring_pose|]; cbn [node_of];
    intros Hw'; injection Hw' as <-.
  - destruct (classify_effect box scoring_pose (clock_tick w))
      as (Hsent & Hconfig & Hclock & Hflag & (new & Hlog & _) & _).
    cbn [clock_tick sent clock_reads have_an_artifact_to_report rosout]
      in Hsent, Hclock, Hflag, Hlog.
    rewrite Hsent, Hclock, Hflag. repeat split; try apply Hconfig.
    + intros ->. reflexivity.
    + exists new. exact Hlog.
  - split; [reflexivity|]. split; [now repeat split|]. split; [reflexivity|].
    split; [auto|]. exists []. cbn. now rewrite app_nil_r.
Qed.

Lemma process_boxes_frame {P : Platform} (n : nat) (cloud_msg : PointCloud2)
  (tf_buffer : tf2_Buffer) (boxes : list BoundingBox) :
  forall w w' : Node,
    node_of (process_boxes n cloud_msg tf_buffer boxes w) = Some w' ->
    sent w' = sent w
    /\ same_config w w'
    /\ (clock_reads w <= clock_reads w' <= clock_reads w + List.length boxes)%nat
    /\ (process_boxes n cloud_msg tf_buffer boxes w = Completed w' ->
        clock_reads w' = (clock_reads w + List.length boxes)%nat)
    /\ (have_an_artifact_to_report w = true -> have_an_artifact_to_report w' = true)
    /\ exists new : list LogRecord, rosout w' = rosout w ++ new.
Proof.
  induction boxes as [|box boxes IH]; intros w w' Hw'.
  - cbn in Hw'. injection Hw' as <-. cbn [List.length process_boxes].
    split; [reflexivity|]. split; [apply same_config_refl|].
    split; [lia|]. split; [intros _; lia|]. split; [auto|].
    exists []. now rewrite app_nil_r.
  - cbn [process_boxes] in *.
    destruct (process_box n cloud_msg tf_buffer box w) as [w1|w1| |] eqn:Hbox;
      try discriminate.
    + destruct (process_box_frame n cloud_msg tf_buffer box w w1)
        as (S1 & C1 & K1 & F1 & (new1 & L1)); [now rewrite Hbox|].
      destruct (IH w1 w' Hw') as (S2 & C2 & K2 & K2' & F2 & (new2 & L2)).
      cbn [List.length].
      split; [congruence|]. split; [apply (same_config_trans w w1 w' C1 C2)|].
      split; [lia|]. split; [intros Hdone; rewrite (K2' Hdone); lia|].
      split; [auto|].
      exists (new1 ++ new2). now rewrite L2, L1, app_assoc.
    + cbn [node_of] in Hw'. injection Hw' as <-.
      destruct (process_box_frame n cloud_msg tf_buffer box w w1)
        as (S1 & C1 & K1 & F1 & L1); [now rewrite Hbox|].
      cbn [List.length].
      split; [exact S1|]. split; [exact C1|]. split; [lia|].
      split; [discriminate|]. split; [exact F1|exact L1].
Qed.

(** X9. However ProcessDetection ends, by returning or by the exception,
    it has sent nothing, changed none of the six configuration strings and
    not cleared the flag; it has only added to the log, and read the clock
    once for each box it started on: once per box when it returns. *)
Theorem ProcessDetection_frame {P : Platform} (n : nat) (cloud_msg : PointCloud2)
  (bb_msg : BoundingBoxes) (tf_buffer : tf2_Buffer) (w w' : Node) :
  node_of (ProcessDetection n cloud_msg bb_msg tf_buffer w) = Some w' ->
  sent w' = sent w
  /\ same_config w w'
  /\ (have_an_artifact_to_report w = true -> have_an_artifact_to_report w' = true)
  /\ (exists new : list LogRecord, rosout w' = rosout w ++ new)
  /\ (clock_reads w <= clock_reads w'
      <= clock_reads w + List.length (bounding_boxes bb_msg))%nat
  /\ (ProcessDetection n cloud_msg bb_msg tf_buffer w = Completed w' ->
      clock_reads w' = (clock_reads w + List.length (bounding_boxes bb_msg))%nat).
Proof.
  intros Hw'. unfold ProcessDetection in *.
  destruct (process_boxes_frame n cloud_msg tf_buffer _ w w' Hw')
    as (HS & HC & HK & HK' & HF & HL).
  split; [exact HS|]. split; [exact HC|]. split; [exact HF|].
  split; [exact HL|]. split; [exact HK|exact HK'].
Qed.

(** X9, witness: two boxes on the bench cloud while a phone is pending. *)
Lemma ProcessDetection_frame_witness :
  exists w' : Node,
    @ProcessDetection (Bench.platform true) 20 Bench.cloud_4x4
      (Bench.boxes [Bench.box "Helmet" 0 0 1 1; Bench.box "Drill" 2 2 3 3]) 0
      (Bench.node true Bench.a_phone) = Completed w'
    /\ sent w' = []
    /\ have_an_artifact_to_report w' = true
    /\ clock_reads w' = 2%nat.
Proof.
  eexists. split; [vm_compute; reflexivity|].
  match goal with
  | |- sent ?w' = _ /\ _ =>
      destruct (@ProcessDetection_frame (Bench.platform true) 20 Bench.cloud_4x4
                  (Bench.boxes [Bench.box "Helmet" 0 0 1 1; Bench.box "Drill" 2 2 3 3])
                  0 (Bench.node true Bench.a_phone) w')
        as (HS & _ & HF & _ & _ & HK)
  end.
  - vm_compute. reflexivity.
  - split; [exact HS|]. split; [exact (HF eq_refl)|].
    apply HK. vm_compute. reflexivity.
Defined.

(** * Which box wins, and how many are logged *)

Lemma process_boxes_unrecognized {P : Platform} (n : nat) (cloud_msg : PointCloud2)
  (tf_buffer : tf2_Buffer) (boxes : list BoundingBox) :
  forall w w' : Node,
    forallb (fun b => negb (recognized b)) boxes = true ->
    node_of (process_boxes n cloud_msg tf_buffer boxes w) = Some w' ->
    artifact_to_report w' = artifact_to_report w
    /\ have_an_artifact_to_report w' = have_an_artifact_to_report w.
Proof.
  induction boxes as [|box boxes IH]; intros w w' Hall Hrun.
  - cbn in Hrun. injection Hrun as <-. now split.
  - cbn [forallb] in Hall. apply andb_prop in Hall as [Hbox Hall].
    apply negb_true_iff in Hbox.
    cbn [process_boxes] in Hrun. rewrite process_box_cases in Hrun.
    destruct (CropPointCloud n cloud_msg box) as [cropped_pc| |]; try discriminate.
    destruct (tf2_transform _ _ _ _) as [scoring_pose|].
    + destruct (IH _ w' Hall Hrun) as (Hart & Hflag).
      destruct (classify_effect box scoring_pose (clock_tick w))
        as (_ & _ & _ & Hflag' & _ & Hart').
      rewrite Hart, Hflag, Hflag', (Hart' Hbox), Hbox, orb_false_r. now split.
    + cbn [node_of] in Hrun. injection Hrun as <-. now split.
Qed.

(** X10. The last box with a label of the vocabulary wins: when
    ProcessDetection returns, the artifact saved is that of the last such
    box, with the type of its label and the position its transform gave,
    whatever boxes came before it, and the flag is up. *)
Theorem ProcessDetection_last_recognized_wins {P : Platform} (n : nat)
  (cloud_msg cropped_pc : PointCloud2) (bb_msg : BoundingBoxes) (tf_buffer : tf2_Buffer)
  (before after : list BoundingBox) (box : BoundingBox) (w w1 w' : Node)
  (scoring_pose : geometry_msgs.PoseStamped) (t : subt.ArtifactType) (what : string) :
  bounding_boxes bb_msg = before ++ box :: after ->
  forallb (fun b => negb (recognized b)) after = true ->
  lookup_label (Class_ box) label_table = Some (t, what) ->
  process_boxes n cloud_msg tf_buffer before w = Completed w1 ->
  CropPointCloud n cloud_msg box = Returns cropped_pc ->
  tf2_transform tf_buffer (fst (GetCentroid cropped_pc w1))
                (artifact_origin_frame w1) Duration_1_0 = Some scoring_pose ->
  ProcessDetection n cloud_msg bb_msg tf_buffer w = Completed w' ->
  type (artifact_to_report w') = t
  /\ location (artifact_to_report w')
     = geometry_msgs.position (geometry_msgs.pose scoring_pose)
  /\ have_an_artifact_to_report w' = true.
Proof.
  intros Hboxes Hafter Hlabel Hbefore Hcrop Htf Hrun.
  unfold ProcessDetection in Hrun.
  rewrite Hboxes, process_boxes_app, Hbefore in Hrun.
  cbn [process_boxes] in Hrun.
  rewrite process_box_cases, Hcrop, Htf, classify_lookup, Hlabel in Hrun.
  destruct (process_boxes_unrecognized n cloud_msg tf_buffer after
              (detected t what scoring_pose (clock_tick w1)) w' Hafter)
    as (Hart & Hflag); [now rewrite Hrun|].
  rewrite Hart, Hflag.
  destruct scoring_pose as [h [[px py pz] q]]. now repeat split.
Qed.

(** X10, witness: a backpack, then a drill, then a helmet. *)
Lemma ProcessDetection_last_recognized_wins_witness :
  exists w' : Node,
    @ProcessDetection (Bench.platform true) 20 Bench.cloud_4x4
      (Bench.boxes [Bench.box "Backpack" 1 1 2 2; Bench.box "Drill" 2 2 3 3;
                    Bench.box "Helmet" 0 0 1 1]) 0
      (Bench.node false Bench.no_artifact) = Completed w'
    /\ type (artifact_to_report w') = subt.TYPE_DRILL
    /\ have_an_artifact_to_report w' = true.
Proof.
  eexists. split; [vm_compute; reflexivity|].
  match goal with
  | |- type (artifact_to_report ?w') = _ /\ _ =>
      destruct (@ProcessDetection_last_recognized_wins (Bench.platform true) 20
                  Bench.cloud_4x4 Bench.cloud_ones
                  (Bench.boxes [Bench.box "Backpack" 1 1 2 2; Bench.box "Drill" 2 2 3 3;
                                Bench.box "Helmet" 0 0 1 1])
                  0 [Bench.box "Backpack" 1 1 2 2] [Bench.box "Helmet" 0 0 1 1]
                  (Bench.box "Drill" 2 2 3 3)
                  (Bench.node false Bench.no_artifact)
                  (classify (Bench.box "Backpack" 1 1 2 2)
                     {| geometry_msgs.header :=
                          {| seq := 0; stamp := 0; frame_id := "artifact_origin" |};
                        geometry_msgs.pose :=
                          {| geometry_msgs.position := Bench.ones;
                             geometry_msgs.orientation :=
                               {| geometry_msgs.qx := zero; geometry_msgs.qy := zero;
                                  geometry_msgs.qz := zero; geometry_msgs.qw := one |} |} |}
                     (clock_tick (Bench.node false Bench.no_artifact)))
                  w'
                  {| geometry_msgs.header :=
                       {| seq := 0; stamp := 1; frame_id := "artifact_origin" |};
                     geometry_msgs.pose :=
                       {| geometry_msgs.position := Bench.ones;
                          geometry_msgs.orientation :=
                            {| geometry_msgs.qx := zero; geometry_msgs.qy := zero;
                               geometry_msgs.qz := zero; geometry_msgs.qw := one |} |} |}
                  subt.TYPE_DRILL "drill")
        as (Ht & _ & Hf)
  end; try (vm_compute; reflexivity).
  split; [exact Ht|exact Hf].
Defined.

Lemma process_boxes_accounting {P : Platform} (n : nat) (cloud_msg : PointCloud2)
  (tf_buffer : tf2_Buffer) (boxes : list BoundingBox) :
  forall w w' : Node,
    process_boxes n cloud_msg tf_buffer boxes w = Completed w' ->
    (exists new : list LogRecord,
       rosout w' = rosout w ++ new
       /\ List.length new = List.length (filter recognized boxes))
    /\ have_an_artifact_to_report w'
       = have_an_artifact_to_report w || existsb recognized boxes.
Proof.
  induction boxes as [|box boxes IH]; intros w w' Hrun.
  - cbn in Hrun. injection Hrun as <-. cbn. rewrite orb_false_r.
    split; [|reflexivity]. exists []. now rewrite app_nil_r.
  - cbn [process_boxes] in Hrun. rewrite process_box_cases in Hrun.
    destruct (CropPointCloud n cloud_msg box) as [cropped_pc| |]; try discriminate.
    destruct (tf2_transform _ _ _ _) as [scoring_pose|]; try discriminate.
    destruct (IH _ w' Hrun) as ((new2 & Hlog2 & Hlen2) & Hflag2).
    destruct (classify_effect box scoring_pose (clock_tick w))
      as (_ & _ & _ & Hflag1 & (new1 & Hlog1 & Hlen1) & _).
    split.
    + exists (new1 ++ new2). rewrite Hlog2, Hlog1, <- app_assoc.
      split; [reflexivity|]. rewrite length_app, Hlen1, Hlen2.
      cbn [filter]. destruct (recognized box); reflexivity.
    + rewrite Hflag2, Hflag1. cbn [existsb]. now rewrite orb_assoc.
Qed.

(** X11. When ProcessDetection returns, it has logged exactly one record
    for each box whose label is in the vocabulary and none for the others,
    and the flag is up if it was up before or if there was such a box. *)
Theorem ProcessDetection_accounting {P : Platform} (n : nat) (cloud_msg : PointCloud2)
  (bb_msg : BoundingBoxes) (tf_buffer : tf2_Buffer) (w w' : Node) :
  ProcessDetection n cloud_msg bb_msg tf_buffer w = Completed w' ->
  (exists new : list LogRecord,
     rosout w' = rosout w ++ new
     /\ List.length new = List.length (filter recognized (bounding_boxes bb_msg)))
  /\ have_an_artifact_to_report w'
     = have_an_artifact_to_report w || existsb recognized (bounding_boxes bb_msg).
Proof.
  intros Hrun. now apply (process_boxes_accounting n cloud_msg tf_buffer _ w w').
Qed.

(** X11, witness: of a backpack, a helmet and a drill, two are logged. *)
Lemma ProcessDetection_accounting_witness :
  exists w' : Node,
    @ProcessDetection (Bench.platform true) 20 Bench.cloud_4x4
      (Bench.boxes [Bench.box "Backpack" 1 1 2 2; Bench.box "Helmet" 0 0 1 1;
                    Bench.box "Drill" 2 2 3 3]) 0
      (Bench.node false Bench.no_artifact) = Completed w'
    /\ List.length (rosout w') = 2%nat
    /\ have_an_artifact_to_report w' = true.
Proof.
  eexists. split; [vm_compute; reflexivity|].
  match goal with
  | |- List.length (rosout ?w') = _ /\ _ =>
      destruct (@ProcessDetection_accounting (Bench.platform true) 20 Bench.cloud_4x4
                  (Bench.boxes [Bench.box "Backpack" 1 1 2 2; Bench.box "Helmet" 0 0 1 1;
                                Bench.box "Drill" 2 2 3 3])
                  0 (Bench.node false Bench.no_artifact) w')
        as ((new & Hlog & Hlen) & Hflag)
  end.
  - vm_compute. reflexivity.
  - split; [|exact Hflag].
    rewrite Hlog, length_app, Hlen. reflexivity.
Defined.

(** * After a message from the base station *)

Lemma ReportArtifacts_idle {P : Platform} (ticks : nat) (w : Node) :
  have_an_artifact_to_report w = false ->
  Nat.iter ticks ReportArtifacts w = w.
Proof.
  intros Hidle. induction ticks as [|ticks IH]; [reflexivity|].
  rewrite Nat.iter_succ, IH. unfold ReportArtifacts. now rewrite Hidle.
Qed.

(** X12. Any message delivered to BaseStationCallback, whoever sent it and
    whatever it holds, silences the reporter: the flag is down afterwards
    and no number of ticks sends or logs anything more, although the saved
    artifact is still there. *)
Theorem ReportArtifacts_idle_after_message {P : Platform}
  (srcAddress dstAddress data : string) (dstPort : Z) (w : Node) (ticks : nat) :
  Nat.iter ticks ReportArtifacts (BaseStationCallback srcAddress dstAddress dstPort data w)
  = BaseStationCallback srcAddress dstAddress dstPort data w
  /\ sent (BaseStationCallback srcAddress dstAddress dstPort data w) = sent w
  /\ have_an_artifact_to_report (BaseStationCallback srcAddress dstAddress dstPort data w)
     = false
  /\ artifact_to_report (BaseStationCallback srcAddress dstAddress dstPort data w)
     = artifact_to_report w.
Proof.
  assert (Hafter : sent (BaseStationCallback srcAddress dstAddress dstPort data w) = sent w
                   /\ have_an_artifact_to_report
                        (BaseStationCallback srcAddress dstAddress dstPort data w) = false
                   /\ artifact_to_report
                        (BaseStationCallback srcAddress dstAddress dstPort data w)
                      = artifact_to_report w).
  { unfold BaseStationCallback.
    destruct (ParseFromString data) as [[|] res]; now repeat split. }
  split; [|exact Hafter].
  apply ReportArtifacts_idle, Hafter.
Qed.

(** * Runs of the node *)

Lemma BaseStationCallback_frame {P : Platform} (srcAddress dstAddress data : string)
  (dstPort : Z) (w : Node) :
  sent (BaseStationCallback srcAddress dstAddress dstPort data w) = sent w
  /\ same_config w (BaseStationCallback srcAddress dstAddress dstPort data w)
  /\ have_an_artifact_to_report (BaseStationCallback srcAddress dstAddress dstPort data w)
     = false
  /\ artifact_to_report (BaseStationCallback srcAddress dstAddress dstPort data w)
     = artifact_to_report w.
Proof.
  unfold BaseStationCallback.
  destruct (ParseFromString data) as [[|] res]; now repeat split.
Qed.

Lemma ReportArtifacts_frame {P : Platform} (w : Node) :
  same_config w (ReportArtifacts w)
  /\ have_an_artifact_to_report (ReportArtifacts w) = have_an_artifact_to_report w
  /\ artifact_to_report (ReportArtifacts w) = artifact_to_report w
  /\ exists new : list (string * string),
       sent (ReportArtifacts w) = sent w ++ new
       /\ Forall (fun m => snd m = kBaseStationName) new
       /\ (List.length new <= 1)%nat
       /\ (have_an_artifact_to_report w = false -> new = []).
Proof.
  unfold ReportArtifacts.
  destruct (have_an_artifact_to_report w) eqn:Hflag; cbn [negb].
  - destruct (SerializeToString (artifact_message (artifact_to_report w)))
      as [[|] serializedData]; cbn;
      (split; [now repeat split|]); (split; [exact Hflag|]); (split; [reflexivity|]);
      eexists; (split; [reflexivity|]); (split; [now repeat constructor|]);
      (split; [cbn; lia|discriminate]).
  - split; [apply same_config_refl|]. split; [exact Hflag|]. split; [reflexivity|].
    exists []. rewrite app_nil_r.
    split; [reflexivity|]. split; [constructor|]. split; [cbn; lia|reflexivity].
Qed.

Lemma dispatch_frame {P : Platform} (n : nat) (event : Event) (w w' : Node) :
  node_of (dispatch n event w) = Some w' ->
  same_config w w'
  /\ exists new : list (string * string),
       sent w' = sent w ++ new
       /\ Forall (fun m => snd m = kBaseStationName) new
       /\ (List.length new <= if is_timer event then 1 else 0)%nat.
Proof.
  destruct event as [|cloud_msg bb_msg tf_buffer|srcAddress dstAddress dstPort data];
    cbn [dispatch node_of is_timer].
  - intros Hw'. injection Hw' as <-.
    destruct (ReportArtifacts_frame w) as (HC & _ & _ & (new & HS & HF & HL & _)).
    split; [exact HC|]. exists new. now repeat split.
  - intros Hw'. unfold ProcessDetection in Hw'.
    destruct (process_boxes_frame n cloud_msg tf_buffer _ w w' Hw')
      as (HS & HC & _).
    split; [exact HC|]. exists []. rewrite app_nil_r.
    split; [exact HS|]. split; [constructor|cbn; lia].
  - intros Hw'. injection Hw' as <-.
    destruct (BaseStationCallback_frame srcAddress dstAddress data dstPort w)
      as (HS & HC & _).
    split; [exact HC|]. exists []. rewrite app_nil_r.
    split; [exact HS|]. split; [constructor|cbn; lia].
Qed.

(** X13. In every run of the callbacks, however it ends, the node has
    changed none of its six configuration strings, and what it has handed
    to the comms client is only added at the end, addressed to the base
    station every time, and at most one message for each timer event. *)
Theorem spin_sends_only_to_base_station {P : Platform} (n : nat) (events : list Event) :
  forall w w' : Node,
    node_of (spin n events w) = Some w' ->
    same_config w w'
    /\ exists new : list (string * string),
         sent w' = sent w ++ new
         /\ Forall (fun m => snd m = kBaseStationName) new
         /\ (List.length new <= List.length (filter is_timer events))%nat.
Proof.
  induction events as [|event events IH]; intros w w' Hw'.
  - cbn in Hw'. injection Hw' as <-.
    split; [apply same_config_refl|]. exists []. rewrite app_nil_r.
    split; [reflexivity|]. split; [constructor|cbn; lia].
  - cbn [spin] in Hw'.
    destruct (dispatch n event w) as [w1|w1| |] eqn:Hevent; try discriminate.
    + destruct (dispatch_frame n event w w1) as (C1 & (new1 & S1 & F1 & L1));
        [now rewrite Hevent|].
      destruct (IH w1 w' Hw') as (C2 & (new2 & S2 & F2 & L2)).
      split; [apply (same_config_trans w w1 w' C1 C2)|].
      exists (new1 ++ new2). rewrite S2, S1, app_assoc.
      split; [reflexivity|]. split; [now apply Forall_app|].
      rewrite length_app. cbn [filter].
      destruct (is_timer event); cbn [List.length]; lia.
    + cbn [node_of] in Hw'. injection Hw' as <-.
      destruct (dispatch_frame n event w w1) as (C1 & (new1 & S1 & F1 & L1));
        [now rewrite Hevent|].
      split; [exact C1|]. exists new1. split; [exact S1|]. split; [exact F1|].
      cbn [filter]. destruct (is_timer event); cbn [List.length]; lia.
Qed.

(** X13, witness: a detection, two ticks, an acknowledgment and a tick. *)
Lemma spin_sends_only_to_base_station_witness :
  exists w' : Node,
    @spin (Bench.platform true) 20
      [BenchRun.pair Bench.cloud_4x4 [Bench.box "Drill" 1 1 2 2] 0;
       BenchRun.tick; BenchRun.tick;
       BenchRun.message EmptyString;
       BenchRun.tick]
      (Bench.node false Bench.no_artifact) = Completed w'
    /\ sent w' = [("2", "base_station"); ("2", "base_station")]%string
    /\ same_config (Bench.node false Bench.no_artifact) w'.
Proof.
  eexists. split; [vm_compute; reflexivity|].
  split; [vm_compute; reflexivity|].
  match goal with
  | |- same_config _ ?w' =>
      refine (proj1 (@spin_sends_only_to_base_station (Bench.platform true) 20
                       [BenchRun.pair Bench.cloud_4x4 [Bench.box "Drill" 1 1 2 2] 0;
                        BenchRun.tick; BenchRun.tick;
                        BenchRun.message EmptyString;
                        BenchRun.tick]
                       (Bench.node false Bench.no_artifact) w' _))
  end.
  vm_compute. reflexivity.
Defined.

Lemma dispatch_idle {P : Platform} (n : nat) (event : Event) (w w' : Node) :
  have_an_artifact_to_report w = false ->
  unrecognized_only event = true ->
  node_of (dispatch n event w) = Some w' ->
  sent w' = sent w
  /\ have_an_artifact_to_report w' = false
  /\ artifact_to_report w' = artifact_to_report w.
Proof.
  intros Hidle Honly.
  destruct event as [|cloud_msg bb_msg tf_buffer|srcAddress dstAddress dstPort data];
    cbn [dispatch node_of unrecognized_only] in *.
  - intros Hw'. injection Hw' as <-.
    destruct (ReportArtifacts_frame w) as (_ & HF & HA & (new & HS & _ & _ & Hnew)).
    rewrite HS, (Hnew Hidle), app_nil_r, HF. auto.
  - intros Hw'. unfold ProcessDetection in Hw'.
    destruct (process_boxes_frame n cloud_msg tf_buffer _ w w' Hw') as (HS & _).
    destruct (process_boxes_unrecognized n cloud_msg tf_buffer _ w w' Honly Hw')
      as (HA & HF).
    rewrite HF. auto.
  - intros Hw'. injection Hw' as <-.
    destruct (BaseStationCallback_frame srcAddress dstAddress data dstPort w)
      as (HS & _ & HF & HA).
    auto.
Qed.

(** X14. Nothing leaves the node before a detection with a label of the
    vocabulary: starting with the flag down, a run of timer events,
    messages and detections whose boxes all have other labels sends
    nothing, however many ticks it holds, and leaves the flag down and the
    saved artifact as it was. *)
Theorem spin_idle_until_detection {P : Platform} (n : nat) (events : list Event) :
  forall w w' : Node,
    have_an_artifact_to_report w = false ->
    forallb unrecognized_only events = true ->
    node_of (spin n events w) = Some w' ->
    sent w' = sent w
    /\ have_an_artifact_to_report w' = false
    /\ artifact_to_report w' = artifact_to_report w.
Proof.
  induction events as [|event events IH]; intros w w' Hidle Hall Hw'.
  - cbn in Hw'. injection Hw' as <-. auto.
  - cbn [forallb] in Hall. apply andb_prop in Hall as [Hevent Hall].
    cbn [spin] in Hw'.
    destruct (dispatch n event w) as [w1|w1| |] eqn:Hrun; try discriminate.
    + destruct (dispatch_idle n event w w1 Hidle Hevent) as (S1 & F1 & A1);
        [now rewrite Hrun|].
      destruct (IH w1 w' F1 Hall Hw') as (S2 & F2 & A2).
      split; [congruence|]. split; [exact F2|congruence].
    + cbn [node_of] in Hw'. injection Hw' as <-.
      apply (dispatch_idle n event w w1 Hidle Hevent). now rewrite Hrun.
Qed.

(** X14, witness: ticks around a helmet and a malformed message. *)
Lemma spin_idle_until_detection_witness :
  exists w' : Node,
    @spin (Bench.platform true) 20
      [BenchRun.tick;
       BenchRun.pair Bench.cloud_4x4 [Bench.box "Helmet" 1 1 2 2] 0;
       BenchRun.tick;
       BenchRun.message "x";
       BenchRun.tick]
      (Bench.node false Bench.no_artifact) = Completed w'
    /\ sent w' = [].
Proof.
  eexists. split; [vm_compute; reflexivity|].
  match goal with
  | |- sent ?w' = _ =>
      refine (proj1 (@spin_idle_until_detection (Bench.platform true) 20
                       [BenchRun.tick;
                        BenchRun.pair Bench.cloud_4x4 [Bench.box "Helmet" 1 1 2 2] 0;
                        BenchRun.tick;
                        BenchRun.message "x";
                        BenchRun.tick]
                       (Bench.node false Bench.no_artifact) w' eq_refl eq_refl _))
  end.
  vm_compute. reflexivity.
Defined.
